(** * pangeo_forge_prefect.flow_manager: resolution and assembly of Prefect flows

    A shallow embedding of [src/pangeo_forge_prefect/flow_manager.py].

    - Python exceptions are values of [exn]; a call that may raise returns a
      [result].
    - Dictionaries read by key ([secrets], [os.environ], [bakery.targets]) are
      [gmap string _]; a missing key raises [KeyError].
    - Dictionary literals handed to the external libraries keep their insertion
      order and are association lists inside [pyval].
    - The stateful part (mutation of recipe objects, requests to the workflow
      engine) threads a [world] through a state-and-exception monad. *)

From Stdlib Require Import ZArith Ascii String List DecimalString Lia.
From stdpp Require Import base option functions strings gmap list.

Open Scope Z_scope.
Open Scope string_scope.

(** ** Exceptions and results *)

Inductive exn : Type :=
  | UnsupportedTarget
  | UnsupportedClusterType
  | UnsupportedFlowStorage
  | UnsupportedPangeoVersion
  | UnsupportedPangeoForgeRecipeVersion
  | UnsupportedPrefectVersion
  | UnsupportedRecipeType
  | KeyError (key : string)
  | AttributeError (obj attr : string)
  | ValueError
  | Exception (message : string).

Inductive result (A : Type) : Type :=
  | Return (a : A)
  | Raise (e : exn).
Arguments Return {A} a.
Arguments Raise {A} e.

#[global] Instance result_ret : MRet result := @Return.
#[global] Instance result_bind : MBind result := fun A B f m =>
  match m with
  | Return a => f a
  | Raise e => Raise e
  end.

(** [d[k]] on a Python [dict] with string keys. *)
Definition getitem {V : Type} (d : gmap string V) (k : string) : result V :=
  match d !! k with
  | Some v => Return v
  | None => Raise (KeyError k)
  end.

(** [str(n)] for a Python [int], as used inside an f-string. *)
Definition str_int (n : Z) : string := NilZero.string_of_int (Z.to_int n).

(** A pod description as [dask_kubernetes.objects.make_pod_spec] builds it.
    The library is external: the record keeps the arguments the pod was made
    from, the container arguments when they were overwritten afterwards
    ([None]: the library's own), and the pod type it was cleaned for by
    [clean_pod_template] ([None]: not cleaned). *)
Record pod_template : Type := {
  pod_image : string;
  pod_labels : list (string * string);
  pod_memory_request : string;
  pod_cpu_request : string;
  pod_env : list (string * string);
  container_args : option (list string);
  cleaned_for : option string
}.

Definition make_pod_spec (image : string) (labels : list (string * string))
    (memory_request cpu_request : string) (env : list (string * string))
    : pod_template :=
  {| pod_image := image; pod_labels := labels;
     pod_memory_request := memory_request; pod_cpu_request := cpu_request;
     pod_env := env; container_args := None; cleaned_for := None |}.

(** [pod.spec.containers[0].args = args] *)
Definition set_container_args (pod : pod_template) (args : list string)
    : pod_template :=
  {| pod_image := pod_image pod; pod_labels := pod_labels pod;
     pod_memory_request := pod_memory_request pod;
     pod_cpu_request := pod_cpu_request pod;
     pod_env := pod_env pod; container_args := Some args;
     cleaned_for := cleaned_for pod |}.

Definition clean_pod_template (pod : pod_template) (pod_type : string)
    : pod_template :=
  {| pod_image := pod_image pod; pod_labels := pod_labels pod;
     pod_memory_request := pod_memory_request pod;
     pod_cpu_request := pod_cpu_request pod;
     pod_env := pod_env pod; container_args := container_args pod;
     cleaned_for := Some pod_type |}.

(** Values placed in keyword dictionaries and YAML documents. *)
#[local] Unset Elimination Schemes.
Inductive pyval : Type :=
  | PNone
  | PBool (b : bool)
  | PInt (n : Z)
  | PStr (s : string)
  | PList (items : list pyval)
  | PDict (items : list (string * pyval))
  | PPod (pod : pod_template).
#[local] Set Elimination Schemes.

(** Lookup in a dictionary literal (first binding of the key). *)
Fixpoint assoc {V : Type} (k : string) (d : list (string * V)) : option V :=
  match d with
  | [] => None
  | (k', v) :: d' => if String.eqb k k' then Some v else assoc k d'
  end.

(** ** Descriptors decoded from [bakeries.yaml] and [meta.yaml]

    The dataclasses of [pangeo_forge_prefect.meta_types] are declared outside
    this module; the records below carry the fields that [flow_manager.py]
    reads, under the names it reads them by. *)

Module StorageOptions.
Record t : Type := mk { key : string; secret : string }.
End StorageOptions.

Module Endpoint.
Record t : Type := mk {
    protocol : string;
    storage_options : option StorageOptions.t
  }.
End Endpoint.

Module Target.
Record t : Type := mk { private : Endpoint.t }.
End Target.

Module FargateClusterOptions.
Record t : Type := mk {
    vpc : string;
    cluster_arn : string;
    task_role_arn : string;
    execution_role_arn : string;
    security_groups : list string
  }.
End FargateClusterOptions.

Module Cluster.
Record t : Type := mk {
    type : string;
    pangeo_forge_version : string;
    pangeo_notebook_version : string;
    prefect_version : string;
    worker_image : string;
    flow_storage : string;
    flow_storage_protocol : string;
    flow_storage_options : StorageOptions.t;
    max_workers : Z;
    cluster_options : FargateClusterOptions.t
  }.
End Cluster.

Module Bakery.
Record t : Type := mk {
    cluster : Cluster.t;
    targets : gmap string Target.t
  }.
End Bakery.

Module Resources.
Record t : Type := mk { memory : Z; cpu : Z }.
End Resources.

Module RecipeBakery.
Record t : Type := mk {
    id : string;
    target : string;
    resources : option Resources.t
  }.
End RecipeBakery.

Module RecipeMeta.
Record t : Type := mk {
    id : string;
    object : string;
    dict_object : option string
  }.
End RecipeMeta.

Module Meta.
Record t : Type := mk {
    pangeo_forge_version : string;
    pangeo_notebook_version : string;
    recipes : list RecipeMeta.t;
    bakery : RecipeBakery.t
  }.
End Meta.

Module Versions.
Record t : Type := mk {
    pangeo_notebook_version : string;
    pangeo_forge_version : string;
    prefect_version : string
  }.
End Versions.

(** The four tags imported from [meta_types.bakery].  Their literal values are
    not part of this module, so everything below is stated for arbitrary
    values. *)
Class BakeryTags : Type := {
  ABFS_PROTOCOL : string;
  AKS_CLUSTER : string;
  FARGATE_CLUSTER : string;
  S3_PROTOCOL : string
}.

(** [adlfs] is external too.  Its [AzureBlobFileSystem(connection_string=s)]
    parses [s] while the object is built and raises [ValueError] on a string
    it cannot use; which strings it accepts is the library's matter. *)
Class Adlfs : Type := {
  accepts_connection_string : string → bool
}.

(** ** Storage handles *)

Inductive filesystem : Type :=
  | S3FileSystem (anon : bool) (default_cache_type : string)
      (default_fill_cache : bool) (key secret : string)
  | AzureBlobFileSystem (connection_string : string).

Inductive storage_class : Type :=
  | FSSpecTargetClass
  | CacheFSSpecTargetClass
  | MetadataTargetClass.

Record storage_handle : Type := {
  handle_class : storage_class;
  fs : filesystem;
  root_path : string
}.

Definition FSSpecTarget (fs : filesystem) (root_path : string) : storage_handle :=
  {| handle_class := FSSpecTargetClass; fs := fs; root_path := root_path |}.
Definition CacheFSSpecTarget (fs : filesystem) (root_path : string) : storage_handle :=
  {| handle_class := CacheFSSpecTargetClass; fs := fs; root_path := root_path |}.
Definition MetadataTarget (fs : filesystem) (root_path : string) : storage_handle :=
  {| handle_class := MetadataTargetClass; fs := fs; root_path := root_path |}.

Module Targets.
Record t : Type := mk {
    target : storage_handle;
    cache : storage_handle;
    metadata : storage_handle
  }.
End Targets.

(** ** What the resolvers build *)

Record DaskExecutor : Type := {
    cluster_class : string;
    cluster_kwargs : list (string * pyval);
    adapt_kwargs : list (string * pyval)
  }.

Inductive RunConfig : Type :=
    | ECSRun (image : string) (labels : list string)
        (task_definition : list (string * pyval))
        (run_task_kwargs : list (string * pyval))
    | KubernetesRun (job_template : pyval) (image : string) (labels : list string)
        (memory_request cpu_request : string) (env : list (string * string)).

(** The document [yaml.safe_load] reads from the literal in the source. *)
Definition job_template_yaml : pyval :=
    PDict
      [ ("apiVersion", PStr "batch/v1");
        ("kind", PStr "Job");
        ("metadata",
          PDict [ ("annotations",
                    PDict [ ("cluster-autoscaler.kubernetes.io/safe-to-evict",
                              PStr "false") ]) ]);
        ("spec",
          PDict [ ("template",
                    PDict [ ("spec",
                              PDict [ ("containers",
                                        PList [ PDict [ ("name", PStr "flow") ] ]) ]) ]) ]) ].

Inductive FlowStorage : Type :=
    | S3 (bucket : string) (client_options : list (string * string))
    | Azure (container : string) (connection_string : string).

Section Resolvers.
Context {tags : BakeryTags} {adlfs : Adlfs}.

(** [AzureBlobFileSystem(connection_string=secret)], which may raise. *)
Definition connect_azure (secret : string) : result filesystem :=
  if accepts_connection_string secret then Return (AzureBlobFileSystem secret)
  else Raise ValueError.

(** [configure_targets].  [environ] is [os.environ].  The result is
      [Return None] where the Python function runs off its end and so
      returns [None]. *)
Definition configure_targets (environ : gmap string string)
      (bakery : Bakery.t) (recipe_bakery : RecipeBakery.t)
      (recipe_name : string) (secrets : gmap string string)
      (extension : string) : result (option Targets.t) :=
    target ← getitem (Bakery.targets bakery) (RecipeBakery.target recipe_bakery);
    repository ← getitem environ "GITHUB_REPOSITORY";
    let private := Target.private target in
    let bucket := RecipeBakery.target recipe_bakery in
    if String.eqb (Endpoint.protocol private) S3_PROTOCOL then
      match Endpoint.storage_options private with
      | Some storage_options =>
          key ← getitem secrets (StorageOptions.key storage_options);
          secret ← getitem secrets (StorageOptions.secret storage_options);
          let fs := S3FileSystem false "none" false key secret in
          let target_path :=
            "s3://" +:+ bucket +:+ "/" +:+ repository +:+ "/"
                    +:+ recipe_name +:+ "." +:+ extension in
          let target := FSSpecTarget fs target_path in
          let cache_path :=
            "s3://" +:+ bucket +:+ "/" +:+ repository +:+ "/"
                    +:+ recipe_name +:+ "/cache" in
          let cache_target := CacheFSSpecTarget fs cache_path in
          let metadata_path :=
            "s3://" +:+ bucket +:+ "/" +:+ repository +:+ "/"
                    +:+ recipe_name +:+ "/cache/metadata" in
          let metadata_target := MetadataTarget fs metadata_path in
          Return (Some (Targets.mk target cache_target metadata_target))
      | None => Return None
      end
    else if String.eqb (Endpoint.protocol private) ABFS_PROTOCOL then
      match Endpoint.storage_options private with
      | Some storage_options =>
          secret ← getitem secrets (StorageOptions.secret storage_options);
          fs ← connect_azure secret;
          let target_path :=
            "abfs://" +:+ bucket +:+ "/" +:+ repository +:+ "/"
                      +:+ recipe_name +:+ "." +:+ extension in
          let target := FSSpecTarget fs target_path in
          let cache_path :=
            "abfs://" +:+ bucket +:+ "/" +:+ repository +:+ "/"
                      +:+ recipe_name +:+ "/cache" in
          let cache_target := CacheFSSpecTarget fs cache_path in
          let metadata_path :=
            "abfs://" +:+ bucket +:+ "/" +:+ repository +:+ "/"
                      +:+ recipe_name +:+ "/cache/metadata" in
          let metadata_target := MetadataTarget fs metadata_path in
          Return (Some (Targets.mk target cache_target metadata_target))
      | None => Return None
      end
    else Raise UnsupportedTarget.


(** ** Executors *)

Definition configure_dask_executor (cluster : Cluster.t)
      (recipe_bakery : RecipeBakery.t) (recipe_name : string)
      (secrets : gmap string string) : result DaskExecutor :=
    if String.eqb (Cluster.type cluster) FARGATE_CLUSTER then
      let worker_cpu :=
        match RecipeBakery.resources recipe_bakery with
        | Some resources => Resources.cpu resources
        | None => 1024
        end in
      let worker_mem :=
        match RecipeBakery.resources recipe_bakery with
        | Some resources => Resources.memory resources
        | None => 4096
        end in
      let options := Cluster.cluster_options cluster in
      Return
        {| cluster_class := "dask_cloudprovider.aws.FargateCluster";
           cluster_kwargs :=
             [ ("image", PStr (Cluster.worker_image cluster));
               ("vpc", PStr (FargateClusterOptions.vpc options));
               ("cluster_arn", PStr (FargateClusterOptions.cluster_arn options));
               ("task_role_arn", PStr (FargateClusterOptions.task_role_arn options));
               ("execution_role_arn",
                 PStr (FargateClusterOptions.execution_role_arn options));
               ("security_groups",
                 PList (map PStr (FargateClusterOptions.security_groups options)));
               ("scheduler_cpu", PInt 2048);
               ("scheduler_mem", PInt 16384);
               ("worker_cpu", PInt worker_cpu);
               ("worker_mem", PInt worker_mem);
               ("scheduler_timeout", PStr "15 minutes");
               ("environment",
                 PDict [ ("PREFECT__LOGGING__EXTRA_LOGGERS",
                           PStr "['pangeo_forge_recipes']");
                         ("MALLOC_TRIM_THRESHOLD_", PStr "0") ]);
               ("tags",
                 PDict [ ("Project", PStr "pangeo-forge");
                         ("Recipe", PStr recipe_name) ]) ];
           adapt_kwargs :=
             [ ("minimum", PInt 5);
               ("maximum", PInt (Cluster.max_workers cluster)) ] |}
    else if String.eqb (Cluster.type cluster) AKS_CLUSTER then
      let worker_cpu :=
        match RecipeBakery.resources recipe_bakery with
        | Some resources => Resources.cpu resources
        | None => 250
        end in
      let worker_mem :=
        match RecipeBakery.resources recipe_bakery with
        | Some resources => Resources.memory resources
        | None => 512
        end in
      let scheduler_spec :=
        make_pod_spec (Cluster.worker_image cluster)
          [ ("Recipe", recipe_name); ("Project", "pangeo-forge") ]
          "10000Mi" "2048m" [] in
      let scheduler_spec := set_container_args scheduler_spec ["dask-scheduler"] in
      let scheduler_spec := clean_pod_template scheduler_spec "scheduler" in
      connection_string ←
        getitem secrets (StorageOptions.secret (Cluster.flow_storage_options cluster));
      Return
        {| cluster_class := "dask_kubernetes.KubeCluster";
           cluster_kwargs :=
             [ ("pod_template",
                 PPod (make_pod_spec (Cluster.worker_image cluster)
                         [ ("Recipe", recipe_name); ("Project", "pangeo-forge") ]
                         (str_int worker_mem +:+ "Mi")
                         (str_int worker_cpu +:+ "m")
                         [ ("AZURE_STORAGE_CONNECTION_STRING", connection_string) ]));
               ("scheduler_pod_template", PPod scheduler_spec) ];
           adapt_kwargs :=
             [ ("minimum", PInt 5);
               ("maximum", PInt (Cluster.max_workers cluster)) ] |}
    else Raise UnsupportedClusterType.

(** ** Run configurations *)

Definition configure_run_config (cluster : Cluster.t)
      (recipe_bakery : RecipeBakery.t) (recipe_name : string)
      (secrets : gmap string string) : result RunConfig :=
    if String.eqb (Cluster.type cluster) FARGATE_CLUSTER then
      let definition :=
        [ ("networkMode", PStr "awsvpc");
          ("cpu", PInt 2048);
          ("memory", PInt 16384);
          ("containerDefinitions", PList [ PDict [ ("name", PStr "flow") ] ]);
          ("executionRoleArn",
            PStr (FargateClusterOptions.execution_role_arn
                    (Cluster.cluster_options cluster))) ] in
      Return
        (ECSRun (Cluster.worker_image cluster) [ RecipeBakery.id recipe_bakery ]
           definition
           [ ("tags",
               PList [ PDict [ ("key", PStr "Project");
                               ("value", PStr "pangeo-forge") ];
                       PDict [ ("key", PStr "Recipe");
                               ("value", PStr recipe_name) ] ]) ])
    else if String.eqb (Cluster.type cluster) AKS_CLUSTER then
      let job_template := job_template_yaml in
      connection_string ←
        getitem secrets (StorageOptions.secret (Cluster.flow_storage_options cluster));
      Return
        (KubernetesRun job_template (Cluster.worker_image cluster)
           [ RecipeBakery.id recipe_bakery ] "10000Mi" "2048m"
           [ ("AZURE_STORAGE_CONNECTION_STRING", connection_string) ])
    else Raise UnsupportedClusterType.

(** ** Flow storage *)

Definition configure_flow_storage (cluster : Cluster.t)
      (secrets : gmap string string) : result FlowStorage :=
    if String.eqb (Cluster.flow_storage_protocol cluster) S3_PROTOCOL then
      key ← getitem secrets (StorageOptions.key (Cluster.flow_storage_options cluster));
      secret ←
        getitem secrets (StorageOptions.secret (Cluster.flow_storage_options cluster));
      Return
        (S3 (Cluster.flow_storage cluster)
           [ ("aws_access_key_id", key); ("aws_secret_access_key", secret) ])
    else if String.eqb (Cluster.flow_storage_protocol cluster) ABFS_PROTOCOL then
      secret ←
        getitem secrets (StorageOptions.secret (Cluster.flow_storage_options cluster));
      Return (Azure (Cluster.flow_storage cluster) secret)
    else Raise UnsupportedFlowStorage.

(** ** Version gate *)

(** Python's [a != b] on [str]. *)
Definition str_ne (a b : string) : bool := negb (String.eqb a b).

Definition check_versions (meta : Meta.t) (cluster : Cluster.t)
      (versions : Versions.t) : result bool :=
    if str_ne (Meta.pangeo_notebook_version meta)
              (Versions.pangeo_notebook_version versions) then
      Raise UnsupportedPangeoVersion
    else if str_ne (Meta.pangeo_notebook_version meta)
                   (Cluster.pangeo_notebook_version cluster) then
      Raise UnsupportedPangeoVersion
    else if str_ne (Meta.pangeo_forge_version meta)
                   (Versions.pangeo_forge_version versions) then
      Raise UnsupportedPangeoForgeRecipeVersion
    else if str_ne (Meta.pangeo_forge_version meta)
                   (Cluster.pangeo_forge_version cluster) then
      Raise UnsupportedPangeoForgeRecipeVersion
    else if str_ne (Versions.prefect_version versions)
                   (Cluster.prefect_version cluster) then
      Raise UnsupportedPrefectVersion
    else Return true.

End Resolvers.

(** ** State and exceptions

    [ST σ A]: a computation over a state [σ] that returns an [A] or raises.
    The state reached when an exception is raised is kept: Python does not
    undo assignments made before a [raise]. *)

Definition ST (σ A : Type) : Type := σ → result A * σ.

#[global] Instance ST_ret {σ} : MRet (ST σ) := fun A a s => (Return a, s).
#[global] Instance ST_bind {σ} : MBind (ST σ) := fun A B f m s =>
  match m s with
  | (Return a, s') => f a s'
  | (Raise e, s') => (Raise e, s')
  end.

Definition modify {σ} (f : σ → σ) : ST σ unit := fun s => (Return tt, f s).
Definition get {σ} : ST σ σ := fun s => (Return s, s).
Definition lift {σ A} (r : result A) : ST σ A := fun s => (r, s).

(** [for x in xs: body(x)] *)
Fixpoint for_each {σ A} (body : A → ST σ unit) (xs : list A) : ST σ unit :=
  match xs with
  | [] => mret tt
  | x :: xs' => body x ≫= λ _, for_each body xs'
  end.

(** ** Logging, as far as [set_log_level] touches it

    [root_handlers]: the number of handlers on the root logger, which
    [logging.basicConfig()] configures only when there is none;
    [logger_levels]: the level set on each named logger. *)

Record logging_state : Type := {
  root_handlers : nat;
  logger_levels : gmap string Z
}.

(** [logging.DEBUG], the lowest of the named levels. *)
Definition DEBUG : Z := 10.

Definition basicConfig (l : logging_state) : logging_state :=
  match root_handlers l with
  | O => {| root_handlers := 1; logger_levels := logger_levels l |}
  | _ => l
  end.

(** [logging.getLogger(name).setLevel(level=level)] *)
Definition setLevel (name : string) (level : Z) (l : logging_state)
    : logging_state :=
  {| root_handlers := root_handlers l;
     logger_levels := <[name := level]> (logger_levels l) |}.

(** What a running task can see and change: the logging configuration and
    the rest of its process, of an arbitrary type [S]. *)
Record runtime (S : Type) : Type := {
  logging : logging_state;
  process : S
}.
Arguments logging {S} _.
Arguments process {S} _.

Definition with_logging {S} (f : logging_state → logging_state)
    (rt : runtime S) : runtime S :=
  {| logging := f (logging rt); process := process rt |}.

(** A task's [run] method: positional and keyword arguments in, a value or an
    exception out. *)
Definition task_fn (S : Type) : Type :=
  list pyval → list (string * pyval) → ST (runtime S) pyval.

Definition set_log_level {S} (func : task_fn S) : task_fn S :=
  fun args kwargs =>
    modify (with_logging basicConfig) ≫= λ _,
    modify (with_logging (setLevel "pangeo_forge_recipes" DEBUG)) ≫= λ _,
    result ← func args kwargs;
    mret result.

(** ** Recipes, tasks and flows *)

(** [datetime.timedelta], normalised as Python keeps it. *)
Record timedelta : Type := {
  days : Z;
  seconds : Z;
  microseconds : Z
}.

(** [timedelta(minutes=m)] *)
Definition timedelta_minutes (m : Z) : timedelta :=
  {| days := (m * 60) / 86400; seconds := (m * 60) mod 86400; microseconds := 0 |}.

Definition total_seconds (d : timedelta) : Z := days d * 86400 + seconds d.

Module Task.
Record t (S : Type) : Type := mk {
  name : string;
  max_retries : Z;
  retry_delay : option timedelta;
  run : task_fn S
}.
Arguments mk {S}.
Arguments name {S}.
Arguments max_retries {S}.
Arguments retry_delay {S}.
Arguments run {S}.
End Task.

Module Flow.
Record t (S : Type) : Type := mk {
  name : string;
  tasks : list (Task.t S);
  storage : option FlowStorage;
  run_config : option RunConfig;
  executor : option DaskExecutor
}.
Arguments mk {S}.
Arguments name {S}.
Arguments tasks {S}.
Arguments storage {S}.
Arguments run_config {S}.
Arguments executor {S}.
End Flow.

Inductive recipe_class : Type :=
  | XarrayZarrRecipe
  | OtherRecipe (class_name : string).

(** A recipe object: its class, the three slots [recipe_to_flow] assigns
    ([None] while unset) and the rest of its definition. *)
Module Recipe.
Record t : Type := mk {
  class : recipe_class;
  target : option storage_handle;
  input_cache : option storage_handle;
  metadata_cache : option storage_handle;
  definition : pyval
}.
End Recipe.

Definition get_target_extension (recipe : Recipe.t) : result string :=
  match Recipe.class recipe with
  | XarrayZarrRecipe => Return "zarr"
  | OtherRecipe _ => Raise UnsupportedRecipeType
  end.

(** ** The world of [register_flow]

    [objects] is the store of recipe objects, by address: the orchestrator
    and [recipe_to_flow] hold the same object, so an assignment to a slot is
    an update of the store.  [calls] lists, oldest first, the resolver
    invocations and the requests made to the workflow engine. *)

Inductive event (S : Type) : Type :=
  | ConfigureTargets (recipe_name : string)
  | ConfigureDaskExecutor (recipe_name : string)
  | ConfigureFlowStorage
  | ConfigureRunConfig (recipe_name : string)
  | Client
  | Register (flow : Flow.t S) (project_name : string)
  | CreateFlowRun (flow_id run_name : string)
  | CreateAutomation (flow_id pat_token : string).
Arguments ConfigureTargets {S}.
Arguments ConfigureDaskExecutor {S}.
Arguments ConfigureFlowStorage {S}.
Arguments ConfigureRunConfig {S}.
Arguments Client {S}.
Arguments Register {S}.
Arguments CreateFlowRun {S}.
Arguments CreateAutomation {S}.

Record world (S : Type) : Type := {
  objects : nat → Recipe.t;
  calls : list (event S)
}.
Arguments objects {S}.
Arguments calls {S}.

Definition log {S} (e : event S) : ST (world S) unit :=
  modify (λ w, {| objects := objects w; calls := calls w ++ [e] |}).

(** [setattr] on the recipe object at [address]. *)
Definition update_object {S} (address : nat) (f : Recipe.t → Recipe.t)
    : ST (world S) unit :=
  modify (λ w, {| objects := <[address := f (objects w address)]> (objects w);
                  calls := calls w |}).

Definition set_target (v : storage_handle) (r : Recipe.t) : Recipe.t :=
  Recipe.mk (Recipe.class r) (Some v) (Recipe.input_cache r)
    (Recipe.metadata_cache r) (Recipe.definition r).
Definition set_input_cache (v : storage_handle) (r : Recipe.t) : Recipe.t :=
  Recipe.mk (Recipe.class r) (Recipe.target r) (Some v)
    (Recipe.metadata_cache r) (Recipe.definition r).
Definition set_metadata_cache (v : storage_handle) (r : Recipe.t) : Recipe.t :=
  Recipe.mk (Recipe.class r) (Recipe.target r) (Recipe.input_cache r)
    (Some v) (Recipe.definition r).

(** The jobs the engine was asked to register, oldest first. *)
Definition registered {S} (w : world S) : list (Flow.t S * string) :=
  omap (λ e, match e with
             | Register flow project_name => Some (flow, project_name)
             | _ => None
             end) (calls w).

(** What [get_module_attribute] can hand back: a recipe object or a
    dictionary of them. *)
Inductive attribute : Type :=
  | RecipeObject (address : nat)
  | RecipeDict (items : list (string * nat)).

(** Python truthiness of an optional string ([None] and [""] are false). *)
Definition truthy (s : option string) : bool :=
  match s with
  | Some "" | None => false
  | Some _ => true
  end.

Section Assembly.
Context {tags : BakeryTags} {adlfs : Adlfs} {S : Type}.

(** The recipe library, the module loader and the engine are external:
    [to_prefect] and [copy_pruned] are the recipe's methods,
    [get_module_attribute] executes the module next to [meta_path] (it may
    create recipe objects, and may raise), [flow_register] is the engine's
    answer to [flow.register(project_name=...)]. *)
Variable to_prefect : Recipe.t → Flow.t S.
Variable copy_pruned : Recipe.t → Recipe.t.
Variable get_module_attribute :
  string → string → (nat → Recipe.t) → result attribute * (nat → Recipe.t).
Variable flow_register : Flow.t S → string → result string.

(** The loop over [flow.tasks]. *)
Definition decorate (delta : timedelta) (flow_task : Task.t S) : Task.t S :=
  Task.mk (Task.name flow_task) 3 (Some delta) (set_log_level (Task.run flow_task)).

(** [recipe] is the address of the caller's recipe object; [targets] is
    [None] when [configure_targets] returned [None].  The pruned copy is
    referred to by nothing but the local name, so it is kept as a value. *)
Definition recipe_to_flow (bakery : Bakery.t) (meta : Meta.t)
    (recipe_id : string) (recipe : nat) (targets : option Targets.t)
    (secrets : gmap string string) (prune : bool) : ST (world S) (Flow.t S) :=
  targets ← lift (match targets with
                  | Some t => Return t
                  | None => Raise (AttributeError "NoneType" "target")
                  end);
  update_object recipe (set_target (Targets.target targets)) ≫= λ _,
  update_object recipe (set_input_cache (Targets.cache targets)) ≫= λ _,
  update_object recipe (set_metadata_cache (Targets.metadata targets)) ≫= λ _,
  log (ConfigureDaskExecutor recipe_id) ≫= λ _,
  dask_executor ← lift (configure_dask_executor (Bakery.cluster bakery)
                          (Meta.bakery meta) recipe_id secrets);
  w ← get;
  let recipe := if prune then copy_pruned (objects w recipe) else objects w recipe in
  let flow := to_prefect recipe in
  log ConfigureFlowStorage ≫= λ _,
  storage ← lift (configure_flow_storage (Bakery.cluster bakery) secrets);
  log (ConfigureRunConfig recipe_id) ≫= λ _,
  run_config ← lift (configure_run_config (Bakery.cluster bakery)
                       (Meta.bakery meta) recipe_id secrets);
  let delta := timedelta_minutes 3 in
  mret (Flow.mk recipe_id (map (decorate delta) (Flow.tasks flow))
          (Some storage) (Some run_config) (Some dask_executor)).

(** The body the two branches of the loop in [register_flow] share, for one
    loaded [value] registered under [key].  A value that is no recipe object
    fails the [isinstance] test of [get_target_extension]. *)
Definition register_recipe (environ : gmap string string) (bakery : Bakery.t)
    (meta : Meta.t) (secrets : gmap string string) (prune : bool)
    (project_name : string) (comment_id : option string)
    (key : string) (value : attribute) : ST (world S) unit :=
  match value with
  | RecipeDict _ => lift (Raise UnsupportedRecipeType)
  | RecipeObject recipe =>
      w ← get;
      extension ← lift (get_target_extension (objects w recipe));
      log (ConfigureTargets key) ≫= λ _,
      targets ← lift (configure_targets environ bakery (Meta.bakery meta) key
                        secrets extension);
      flow ← recipe_to_flow bakery meta key recipe targets secrets prune;
      log (Register flow project_name) ≫= λ _,
      flow_id ← lift (flow_register flow project_name);
      if truthy comment_id then
        log (CreateFlowRun flow_id (default "" comment_id)) ≫= λ _,
        pat_token ← lift (getitem secrets "ACTIONS_BOT_TOKEN");
        log (CreateAutomation flow_id pat_token)
      else mret tt
  end.

(** The module loader acts on the object store only. *)
Definition load (meta_path attribute_path : string) : ST (world S) attribute :=
  fun w =>
    let '(r, objs) := get_module_attribute meta_path attribute_path (objects w) in
    (r, {| objects := objs; calls := calls w |}).

(** [register_flow], after the two YAML documents have been read: [meta] is
    the decoded [meta.yaml], [bakeries_dict] the decoded [bakeries.yaml]. *)
Definition register_flow (environ : gmap string string) (meta_path : string)
    (meta : Meta.t) (bakeries_dict : gmap string Bakery.t)
    (secrets : gmap string string) (versions : Versions.t) (prune : bool)
    : ST (world S) unit :=
  bakery ← lift (getitem bakeries_dict (RecipeBakery.id (Meta.bakery meta)));
  lift (check_versions meta (Bakery.cluster bakery) versions) ≫= λ _,
  project_name ← lift (getitem environ "PREFECT_PROJECT_NAME");
  let comment_id := environ !! "COMMENT_ID" in
  log Client ≫= λ _,
  for_each
    (λ recipe_meta,
       if truthy (RecipeMeta.dict_object recipe_meta) then
         recipes_dict ← load meta_path (default "" (RecipeMeta.dict_object recipe_meta));
         items ← lift (match recipes_dict with
                       | RecipeDict items => Return items
                       | RecipeObject _ => Raise (AttributeError "recipe" "items")
                       end);
         for_each
           (λ '(key, value),
              register_recipe environ bakery meta secrets prune project_name
                comment_id key (RecipeObject value))
           items
       else
         recipe ← load meta_path (RecipeMeta.object recipe_meta);
         register_recipe environ bakery meta secrets prune project_name
           comment_id (RecipeMeta.id recipe_meta) recipe)
    (Meta.recipes meta).

End Assembly.

(** ** Module references

    [get_module_attribute] starts by taking its reference apart:
    [module_components = attribute_path.split(":")], then
    [module = f"{module_components[0]}.py"] and
    [name = module_components[1]].  Loading the module itself is the
    loader's business. *)

(** [s.split(sep)] for a one-character separator. *)
Fixpoint str_split (sep : ascii) (s : string) : list string :=
  match s with
  | EmptyString => [ "" ]
  | String c rest =>
      if Ascii.eqb c sep then "" :: str_split sep rest
      else match str_split sep rest with
           | [] => [ String c "" ]
           | component :: components => String c component :: components
           end
  end.

(** [sep.join(components)] *)
Fixpoint str_join (sep : string) (components : list string) : string :=
  match components with
  | [] => ""
  | [ component ] => component
  | component :: rest => component +:+ sep +:+ str_join sep rest
  end.

(** [c in s] for a character [c]. *)
Fixpoint contains (c : ascii) (s : string) : bool :=
  match s with
  | EmptyString => false
  | String c' rest => Ascii.eqb c' c || contains c rest
  end.

(** The module file and the attribute name a reference stands for; [None]
    is the [IndexError] of [module_components[1]]. *)
Definition module_and_name (attribute_path : string) : option (string * string) :=
  let module_components := str_split ":"%char attribute_path in
  match module_components with
  | component0 :: component1 :: _ => Some (component0 +:+ ".py", component1)
  | _ => None
  end.

(** ** Vocabulary of the properties *)

(** The protocol of an endpoint is one of the two the resolvers dispatch on. *)
Definition recognized_protocol {tags : BakeryTags} (protocol : string) : bool :=
  String.eqb protocol S3_PROTOCOL || String.eqb protocol ABFS_PROTOCOL.

(** The effective worker size: the recipe's hint when there is one. *)
Definition hint_or (default : Z) (field : Resources.t → Z)
    (recipe_bakery : RecipeBakery.t) : Z :=
  match RecipeBakery.resources recipe_bakery with
  | Some resources => field resources
  | None => default
  end.

(** The pod template an executor carries under a keyword. *)
Definition kwarg_pod (keyword : string) (executor : DaskExecutor)
    : option pod_template :=
  match assoc keyword (cluster_kwargs executor) with
  | Some (PPod pod) => Some pod
  | _ => None
  end.

(** A pod asks the orchestrator for [cpu] millicores and [memory] mebibytes. *)
Definition requests (pod : pod_template) (cpu memory : Z) : Prop :=
  pod_cpu_request pod = str_int cpu +:+ "m"
  ∧ pod_memory_request pod = str_int memory +:+ "Mi".

(** The reading of the container-orchestrator case under which the scheduler
    template and the worker template both request the resolved worker size. *)
Definition both_templates_request_worker_size {tags : BakeryTags}
    (cluster : Cluster.t) (recipe_bakery : RecipeBakery.t)
    (recipe_name : string) (secrets : gmap string string) : Prop :=
  ∃ (executor : DaskExecutor) (scheduler worker : pod_template),
    configure_dask_executor cluster recipe_bakery recipe_name secrets
    = Return executor
    ∧ kwarg_pod "scheduler_pod_template" executor = Some scheduler
    ∧ kwarg_pod "pod_template" executor = Some worker
    ∧ requests scheduler (hint_or 250 Resources.cpu recipe_bakery)
        (hint_or 512 Resources.memory recipe_bakery)
    ∧ requests worker (hint_or 250 Resources.cpu recipe_bakery)
        (hint_or 512 Resources.memory recipe_bakery).

(** The driver's run configuration is a [KubernetesRun] asking for 2048m cpu
    and 10000Mi memory. *)
Definition driver_gets_fixed_requests {tags : BakeryTags}
    (cluster : Cluster.t) (recipe_bakery : RecipeBakery.t)
    (recipe_name : string) (secrets : gmap string string) : Prop :=
  ∃ job_template image labels env,
    configure_run_config cluster recipe_bakery recipe_name secrets
    = Return (KubernetesRun job_template image labels "10000Mi" "2048m" env).

(** The five comparisons of the version gate in the order the specification
    lists them, each with the exception its failure raises. *)
Definition version_checks (meta : Meta.t) (cluster : Cluster.t)
    (versions : Versions.t) : list (bool * exn) :=
  [ (String.eqb (Meta.pangeo_notebook_version meta)
       (Versions.pangeo_notebook_version versions), UnsupportedPangeoVersion);
    (String.eqb (Meta.pangeo_notebook_version meta)
       (Cluster.pangeo_notebook_version cluster), UnsupportedPangeoVersion);
    (String.eqb (Meta.pangeo_forge_version meta)
       (Versions.pangeo_forge_version versions),
     UnsupportedPangeoForgeRecipeVersion);
    (String.eqb (Meta.pangeo_forge_version meta)
       (Cluster.pangeo_forge_version cluster),
     UnsupportedPangeoForgeRecipeVersion);
    (String.eqb (Cluster.prefect_version cluster)
       (Versions.prefect_version versions), UnsupportedPrefectVersion) ].

Fixpoint first_failure (checks : list (bool * exn)) : option exn :=
  match checks with
  | [] => None
  | (true, _) :: rest => first_failure rest
  | (false, e) :: _ => Some e
  end.

(** Whether an event is a registration request. *)
Definition registration {S : Type} (e : event S) : bool :=
  match e with
  | Register _ _ => true
  | _ => false
  end.

(** A computation leaves the list of registered jobs as it found it. *)
Definition quiet {S A : Type} (m : ST (world S) A) : Prop :=
  ∀ w : world S, registered (m w).2 = registered w.

(** A computation always raises, and registers nothing before it does. *)
Definition fails_quietly {S A : Type} (m : ST (world S) A) : Prop :=
  ∀ w : world S, (∃ e : exn, (m w).1 = Raise e) ∧ registered (m w).2 = registered w.

(** The recipe object at [address] carries the three handles of [targets]. *)
Definition bound_to (targets : Targets.t) (recipe : Recipe.t) : Prop :=
  Recipe.target recipe = Some (Targets.target targets)
  ∧ Recipe.input_cache recipe = Some (Targets.cache targets)
  ∧ Recipe.metadata_cache recipe = Some (Targets.metadata targets).

(** The logging configuration a wrapped task runs under. *)
Definition configured {S : Type} (rt : runtime S) : runtime S :=
  with_logging (setLevel "pangeo_forge_recipes" DEBUG)
    (with_logging basicConfig rt).

(** A computation only adds to the record of calls, and what it adds
    satisfies [Q]. *)
Definition appends {S A : Type} (Q : list (event S) → Prop)
    (m : ST (world S) A) : Prop :=
  ∀ w : world S, ∃ new, calls (m w).2 = (calls w ++ new)%list ∧ Q new.

(** Whatever a computation returns satisfies [R]. *)
Definition returns {S A : Type} (R : A → Prop) (m : ST (world S) A) : Prop :=
  ∀ (w w' : world S) (a : A), m w = (Return a, w') → R a.

(** Properties of added calls that survive sequencing. *)
Class Additive {S : Type} (Q : list (event S) → Prop) : Prop := {
  additive_nil : Q [];
  additive_app : ∀ new1 new2, Q new1 → Q new2 → Q (new1 ++ new2)%list
}.

(** An event is the invocation of one of the three resolvers that
    [recipe_to_flow] drives. *)
Definition resolver_call {S : Type} (e : event S) : bool :=
  match e with
  | ConfigureDaskExecutor _ | ConfigureFlowStorage | ConfigureRunConfig _ => true
  | _ => false
  end.

Definition run_request {S : Type} (e : event S) : bool :=
  match e with
  | CreateFlowRun _ _ => true
  | _ => false
  end.

Definition hook_request {S : Type} (e : event S) : bool :=
  match e with
  | CreateAutomation _ _ => true
  | _ => false
  end.

(** The number of events of a kind. *)
Definition count {S : Type} (kind : event S → bool) (events : list (event S))
    : nat :=
  length (filter (λ e, kind e = true) events).

(** A job as [recipe_to_flow] leaves it: storage, run configuration and
    executor are set and every task has the retry policy. *)
Definition assembled {S : Type} (flow : Flow.t S) : Prop :=
  is_Some (Flow.storage flow)
  ∧ is_Some (Flow.run_config flow)
  ∧ is_Some (Flow.executor flow)
  ∧ Forall (λ flow_task,
             Task.max_retries flow_task = 3
             ∧ Task.retry_delay flow_task = Some (timedelta_minutes 3))
      (Flow.tasks flow).

(** What [register_flow] may ask of the engine, given the environment and
    the secrets: registrations of assembled jobs in the configured project;
    runs and hooks only under a correlation id, hooks only with the bot's
    token. *)
Definition permitted {S : Type} (environ secrets : gmap string string)
    (e : event S) : Prop :=
  match e with
  | Register flow project_name =>
      assembled flow ∧ environ !! "PREFECT_PROJECT_NAME" = Some project_name
  | CreateFlowRun _ run_name =>
      truthy (environ !! "COMMENT_ID") = true
      ∧ environ !! "COMMENT_ID" = Some run_name
  | CreateAutomation _ pat_token =>
      truthy (environ !! "COMMENT_ID") = true
      ∧ secrets !! "ACTIONS_BOT_TOKEN" = Some pat_token
  | _ => True
  end.

(** Hooks never outnumber runs, runs never outnumber registrations. *)
Definition balanced {S : Type} (events : list (event S)) : Prop :=
  (count hook_request events ≤ count run_request events)%nat
  ∧ (count run_request events ≤ count registration events)%nat.

(** [Q] holds of every batch of calls that [register_flow] can add in one
    step, under the given environment and secrets. *)
Definition admits {S : Type} (environ secrets : gmap string string)
    (Q : list (event S) → Prop) : Prop :=
  Q [ Client ]
  ∧ (∀ key, Q [ ConfigureTargets key ])
  ∧ (∀ e, resolver_call e = true → Q [ e ])
  ∧ ∀ flow project_name,
      assembled flow →
      environ !! "PREFECT_PROJECT_NAME" = Some project_name →
      Q [ Register flow project_name ]
      ∧ ∀ flow_id run_name,
          truthy (environ !! "COMMENT_ID") = true →
          environ !! "COMMENT_ID" = Some run_name →
          Q [ Register flow project_name; CreateFlowRun flow_id run_name ]
          ∧ ∀ pat_token,
              secrets !! "ACTIONS_BOT_TOKEN" = Some pat_token →
              Q [ Register flow project_name; CreateFlowRun flow_id run_name;
                  CreateAutomation flow_id pat_token ].

(** ** Sample descriptors

    A bakery table, a manifest and secrets of the shape the YAML files have,
    used to run the definitions on concrete inputs. *)

Definition sample_tags : BakeryTags :=
  {| ABFS_PROTOCOL := "abfs"; AKS_CLUSTER := "azure.aks";
     FARGATE_CLUSTER := "aws.fargate"; S3_PROTOCOL := "s3" |}.

(** A connection string of the shape Azure issues, and a library that accepts
    it and nothing else. *)
Definition sample_connection_string : string :=
  "DefaultEndpointsProtocol=https;AccountName=forge;AccountKey=c2VjcmV0;EndpointSuffix=core.windows.net".

Definition sample_adlfs : Adlfs :=
  {| accepts_connection_string := String.eqb sample_connection_string |}.

Definition sample_secrets : gmap string string :=
  list_to_map
    [ ("BAKERY_KEY", "AKIA"); ("BAKERY_SECRET", "hunter2");
      ("FLOW_SECRET", "DefaultEndpointsProtocol=https");
      ("ACTIONS_BOT_TOKEN", "ghp") ].

Definition sample_environ : gmap string string :=
  list_to_map
    [ ("GITHUB_REPOSITORY", "org/repo"); ("PREFECT_PROJECT_NAME", "forge") ].

Definition sample_cluster (type flow_storage_protocol : string) : Cluster.t :=
  Cluster.mk type "0.3.4" "2021.05.04" "0.14.7" "pangeo/forge:latest"
    "flows" flow_storage_protocol
    (StorageOptions.mk "BAKERY_KEY" "FLOW_SECRET") 10
    (FargateClusterOptions.mk "vpc-1" "arn:cluster" "arn:task" "arn:exec" ["sg-1"]).

Definition sample_target (protocol : string)
    (storage_options : option StorageOptions.t) : Target.t :=
  Target.mk (Endpoint.mk protocol storage_options).

Definition sample_bakery (cluster : Cluster.t) (target : Target.t) : Bakery.t :=
  Bakery.mk cluster (list_to_map [ ("bucket", target) ]).

Definition sample_recipe_bakery (resources : option Resources.t) : RecipeBakery.t :=
  RecipeBakery.mk "bakery-1" "bucket" resources.

Definition sample_meta (resources : option Resources.t) : Meta.t :=
  Meta.mk "0.3.4" "2021.05.04"
    [ RecipeMeta.mk "foo" "recipe:foo" None ]
    (sample_recipe_bakery resources).

Definition sample_versions : Versions.t :=
  Versions.mk "2021.05.04" "0.3.4" "0.14.7".

(** A recipe library, a loader and an engine to run the orchestrator with:
    every recipe converts to a flow of two tasks, every reference loads the
    object at address 0, and the engine answers with one flow id. *)

Definition sample_run : task_fn unit :=
  fun args kwargs rt => (Return (PList args), rt).

Definition sample_to_prefect (recipe : Recipe.t) : Flow.t unit :=
  Flow.mk "unnamed"
    [ Task.mk "cache_input" 0 None sample_run;
      Task.mk "store_chunk" 0 None sample_run ]
    None None None.

Definition sample_copy_pruned (recipe : Recipe.t) : Recipe.t := recipe.

Definition sample_loader (meta_path attribute_path : string)
    (objs : nat → Recipe.t) : result attribute * (nat → Recipe.t) :=
  (Return (RecipeObject 0), objs).

Definition sample_flow_register (flow : Flow.t unit) (project_name : string)
    : result string :=
  Return "flow-1".

Definition sample_world : world unit :=
  {| objects := λ _, Recipe.mk XarrayZarrRecipe None None None PNone;
     calls := [] |}.

Definition sample_targets : Targets.t :=
  let fs := S3FileSystem false "none" false "AKIA" "hunter2" in
  Targets.mk (FSSpecTarget fs "s3://bucket/org/repo/foo.zarr")
    (CacheFSSpecTarget fs "s3://bucket/org/repo/foo/cache")
    (MetadataTarget fs "s3://bucket/org/repo/foo/cache/metadata").

(** A bakery table with one bakery around [cluster]. *)
Definition sample_bakeries (cluster : Cluster.t) : gmap string Bakery.t :=
  list_to_map
    [ ("bakery-1",
       sample_bakery cluster
         (sample_target "s3" (Some (StorageOptions.mk "BAKERY_KEY" "BAKERY_SECRET")))) ].

(** A cluster built on another notebook image than the manifest asks for. *)
Definition sample_stale_cluster : Cluster.t :=
  Cluster.mk "aws.fargate" "0.3.4" "2020.11.06" "0.14.7" "pangeo/forge:latest"
    "flows" "s3" (StorageOptions.mk "BAKERY_KEY" "FLOW_SECRET") 10
    (FargateClusterOptions.mk "vpc-1" "arn:cluster" "arn:task" "arn:exec" ["sg-1"]).

(** A connection-string target and its options. *)
Definition sample_abfs_options : StorageOptions.t :=
  StorageOptions.mk "BAKERY_KEY" "TARGET_SECRET".

(** The secrets, with a well-formed connection string for the target. *)
Definition sample_abfs_secrets : gmap string string :=
  <["TARGET_SECRET" := sample_connection_string]> sample_secrets.

Definition sample_s3_options : StorageOptions.t :=
  StorageOptions.mk "BAKERY_KEY" "BAKERY_SECRET".

(** A world whose recipe objects are of a class the orchestrator does not
    support. *)
Definition sample_foreign_world : world unit :=
  {| objects := λ _, Recipe.mk (OtherRecipe "HDFReferenceRecipe") None None None PNone;
     calls := [] |}.

(** A world whose recipe objects were bound before, to other handles. *)
Definition sample_bound_world : world unit :=
  {| objects := λ _,
       Recipe.mk XarrayZarrRecipe
         (Some (FSSpecTarget (AzureBlobFileSystem "old") "abfs://old/target"))
         (Some (CacheFSSpecTarget (AzureBlobFileSystem "old") "abfs://old/cache"))
         None PNone;
     calls := [ Client ] |}.

(** A runtime with a handler on the root logger and the recipes logger at
    [WARNING]. *)
Definition sample_runtime : runtime unit :=
  {| logging := {| root_handlers := 1;
                   logger_levels := {[ "pangeo_forge_recipes" := 30 ]} |};
     process := tt |}.

(** * Properties *)

Section ResolverProperties.
Context {tags : BakeryTags} {adlfs : Adlfs}.

Lemma getitem_Some {V : Type} (d : gmap string V) (k : string) (v : V) :
  d !! k = Some v → getitem d k = Return v.
Proof. intros E. unfold getitem. now rewrite E. Qed.

Lemma eqb_tag (a b : string) : a = b → String.eqb a b = true.
Proof. intros ->. apply String.eqb_refl. Qed.

Lemma eqb_other (a b : string) : a ≠ b → String.eqb a b = false.
Proof. intros Hne. now apply String.eqb_neq. Qed.

(** C1 (what the code does).  Once the target descriptor and the repository
    name are found, an unrecognized protocol raises [UnsupportedTarget]; a
    recognized protocol whose credential options are missing raises nothing:
    [configure_targets] returns [None]. *)
Theorem configure_targets_without_options
    (environ : gmap string string) (bakery : Bakery.t)
    (recipe_bakery : RecipeBakery.t) (recipe_name : string)
    (secrets : gmap string string) (extension : string)
    (target : Target.t) (repository : string) :
  Bakery.targets bakery !! RecipeBakery.target recipe_bakery = Some target →
  environ !! "GITHUB_REPOSITORY" = Some repository →
  (recognized_protocol (Endpoint.protocol (Target.private target)) = false →
   configure_targets environ bakery recipe_bakery recipe_name secrets extension
   = Raise UnsupportedTarget)
  ∧ (recognized_protocol (Endpoint.protocol (Target.private target)) = true →
     Endpoint.storage_options (Target.private target) = None →
     configure_targets environ bakery recipe_bakery recipe_name secrets extension
     = Return None).
Proof.
  intros Ht Hr. unfold configure_targets, recognized_protocol.
  rewrite (getitem_Some _ _ _ Ht), (getitem_Some _ _ _ Hr). cbn.
  split.
  - intros Hp. apply orb_false_iff in Hp as [-> ->]. reflexivity.
  - intros Hp Hs. rewrite Hs.
    destruct (String.eqb _ S3_PROTOCOL); [reflexivity|].
    cbn in Hp. now rewrite Hp.
Qed.

(** C3.  For an object-store target whose credentials are all found, the
    three handles share one filesystem and sit at
    [s3://{target_name}/{namespace}/{recipe_id}.{extension}],
    [s3://{target_name}/{namespace}/{recipe_id}/cache] and
    [s3://{target_name}/{namespace}/{recipe_id}/cache/metadata]: the paths are
    a function of those four strings alone. *)
Theorem configure_targets_s3_paths
    (environ : gmap string string) (bakery : Bakery.t)
    (recipe_bakery : RecipeBakery.t) (recipe_name : string)
    (secrets : gmap string string) (extension : string)
    (target : Target.t) (options : StorageOptions.t)
    (repository key secret : string) :
  Bakery.targets bakery !! RecipeBakery.target recipe_bakery = Some target →
  environ !! "GITHUB_REPOSITORY" = Some repository →
  Endpoint.protocol (Target.private target) = S3_PROTOCOL →
  Endpoint.storage_options (Target.private target) = Some options →
  secrets !! StorageOptions.key options = Some key →
  secrets !! StorageOptions.secret options = Some secret →
  ∃ fs : filesystem,
    configure_targets environ bakery recipe_bakery recipe_name secrets extension
    = Return (Some (Targets.mk
        (FSSpecTarget fs
           ("s3://" +:+ RecipeBakery.target recipe_bakery +:+ "/" +:+ repository
                    +:+ "/" +:+ recipe_name +:+ "." +:+ extension))
        (CacheFSSpecTarget fs
           ("s3://" +:+ RecipeBakery.target recipe_bakery +:+ "/" +:+ repository
                    +:+ "/" +:+ recipe_name +:+ "/cache"))
        (MetadataTarget fs
           ("s3://" +:+ RecipeBakery.target recipe_bakery +:+ "/" +:+ repository
                    +:+ "/" +:+ recipe_name +:+ "/cache/metadata")))).
Proof.
  intros Ht Hr Hp Ho Hk Hs.
  exists (S3FileSystem false "none" false key secret).
  unfold configure_targets.
  rewrite (getitem_Some _ _ _ Ht), (getitem_Some _ _ _ Hr). cbn.
  rewrite (eqb_tag _ _ Hp), Ho.
  rewrite (getitem_Some _ _ _ Hk), (getitem_Some _ _ _ Hs). reflexivity.
Qed.

End ResolverProperties.

(** C1, on a concrete bakery: the target's protocol is the object-store one
    and it carries no credential options. *)
Lemma configure_targets_without_options_witness :
  configure_targets (tags := sample_tags) (adlfs := sample_adlfs) sample_environ
    (sample_bakery (sample_cluster "aws.fargate" "s3") (sample_target "s3" None))
    (sample_recipe_bakery None) "foo" sample_secrets "zarr"
  = Return None.
Proof.
  refine (proj2 (configure_targets_without_options (tags := sample_tags) (adlfs := sample_adlfs)
                   sample_environ _ _ "foo" sample_secrets "zarr"
                   (sample_target "s3" None) "org/repo" _ _) _ _);
    reflexivity.
Defined.

(** C3, on the inputs of the specification's example. *)
Lemma configure_targets_s3_paths_witness :
  ∃ fs : filesystem,
    configure_targets (tags := sample_tags) (adlfs := sample_adlfs) sample_environ
      (sample_bakery (sample_cluster "aws.fargate" "s3")
         (sample_target "s3" (Some (StorageOptions.mk "BAKERY_KEY" "BAKERY_SECRET"))))
      (sample_recipe_bakery None) "foo" sample_secrets "zarr"
    = Return (Some (Targets.mk
        (FSSpecTarget fs "s3://bucket/org/repo/foo.zarr")
        (CacheFSSpecTarget fs "s3://bucket/org/repo/foo/cache")
        (MetadataTarget fs "s3://bucket/org/repo/foo/cache/metadata"))).
Proof.
  apply (configure_targets_s3_paths (tags := sample_tags) (adlfs := sample_adlfs) sample_environ
           (sample_bakery (sample_cluster "aws.fargate" "s3")
              (sample_target "s3" (Some (StorageOptions.mk "BAKERY_KEY" "BAKERY_SECRET"))))
           (sample_recipe_bakery None) "foo" sample_secrets "zarr"
           (sample_target "s3" (Some (StorageOptions.mk "BAKERY_KEY" "BAKERY_SECRET")))
           (StorageOptions.mk "BAKERY_KEY" "BAKERY_SECRET")
           "org/repo" "AKIA" "hunter2"); reflexivity.
Defined.

Section ExecutorProperties.
Context {tags : BakeryTags} {adlfs : Adlfs}.

(** C5.  On an ephemeral-serverless (Fargate) cluster the executor is always
    built: workers get the recipe's hint, or 1024 cpu units and 4096 memory
    units without one; the scheduler gets 2048 and 16384; the pool adapts
    between 5 and the cluster's [max_workers]. *)
Theorem configure_dask_executor_fargate
    (cluster : Cluster.t) (recipe_bakery : RecipeBakery.t)
    (recipe_name : string) (secrets : gmap string string) :
  Cluster.type cluster = FARGATE_CLUSTER →
  ∃ executor : DaskExecutor,
    configure_dask_executor cluster recipe_bakery recipe_name secrets
    = Return executor
    ∧ assoc "worker_cpu" (cluster_kwargs executor)
      = Some (PInt match RecipeBakery.resources recipe_bakery with
                   | Some hint => Resources.cpu hint
                   | None => 1024
                   end)
    ∧ assoc "worker_mem" (cluster_kwargs executor)
      = Some (PInt match RecipeBakery.resources recipe_bakery with
                   | Some hint => Resources.memory hint
                   | None => 4096
                   end)
    ∧ assoc "scheduler_cpu" (cluster_kwargs executor) = Some (PInt 2048)
    ∧ assoc "scheduler_mem" (cluster_kwargs executor) = Some (PInt 16384)
    ∧ adapt_kwargs executor
      = [ ("minimum", PInt 5); ("maximum", PInt (Cluster.max_workers cluster)) ].
Proof.
  intros Ht. unfold configure_dask_executor. rewrite (eqb_tag _ _ Ht).
  eexists. split; [reflexivity|]. cbn. repeat split.
Qed.

(** C4, as the code has it.  On a container-orchestrator (AKS) cluster whose
    flow-storage secret is found, the executor carries two pod templates.
    The worker template requests the resolved worker size (the hint, else
    250 millicores and 512 mebibytes) and receives the secret in
    [AZURE_STORAGE_CONNECTION_STRING].  The scheduler template requests a
    fixed 2048 millicores and 10000 mebibytes and receives no secret. *)
Theorem configure_dask_executor_aks
    (cluster : Cluster.t) (recipe_bakery : RecipeBakery.t)
    (recipe_name : string) (secrets : gmap string string)
    (connection_string : string) :
  Cluster.type cluster = AKS_CLUSTER →
  AKS_CLUSTER ≠ FARGATE_CLUSTER →
  secrets !! StorageOptions.secret (Cluster.flow_storage_options cluster)
  = Some connection_string →
  ∃ (executor : DaskExecutor) (scheduler worker : pod_template),
    configure_dask_executor cluster recipe_bakery recipe_name secrets
    = Return executor
    ∧ kwarg_pod "scheduler_pod_template" executor = Some scheduler
    ∧ kwarg_pod "pod_template" executor = Some worker
    ∧ requests worker (hint_or 250 Resources.cpu recipe_bakery)
        (hint_or 512 Resources.memory recipe_bakery)
    ∧ pod_env worker
      = [ ("AZURE_STORAGE_CONNECTION_STRING", connection_string) ]
    ∧ requests scheduler 2048 10000
    ∧ pod_env scheduler = [].
Proof.
  intros Ht Hne Hs. unfold configure_dask_executor.
  rewrite Ht, (eqb_other _ _ Hne), String.eqb_refl.
  rewrite (getitem_Some _ _ _ Hs). cbn.
  do 3 eexists. split; [reflexivity|].
  unfold kwarg_pod. cbn.
  split; [reflexivity|]. split; [reflexivity|].
  unfold requests, hint_or. cbn. repeat split.
Qed.

(** C10, as the code has it.  On a container-orchestrator cluster whose
    flow-storage secret is found, the driver's run configuration asks for
    2048m cpu and 10000Mi memory, and the recipe's resource hint changes
    nothing in it. *)
Theorem configure_run_config_aks_fixed_requests
    (cluster : Cluster.t) (recipe_bakery : RecipeBakery.t)
    (recipe_name : string) (secrets : gmap string string)
    (connection_string : string) :
  Cluster.type cluster = AKS_CLUSTER →
  AKS_CLUSTER ≠ FARGATE_CLUSTER →
  secrets !! StorageOptions.secret (Cluster.flow_storage_options cluster)
  = Some connection_string →
  driver_gets_fixed_requests cluster recipe_bakery recipe_name secrets
  ∧ ∀ hint : option Resources.t,
      configure_run_config cluster
        (RecipeBakery.mk (RecipeBakery.id recipe_bakery)
           (RecipeBakery.target recipe_bakery) hint)
        recipe_name secrets
      = configure_run_config cluster recipe_bakery recipe_name secrets.
Proof.
  intros Ht Hne Hs. unfold driver_gets_fixed_requests, configure_run_config.
  rewrite Ht, (eqb_other _ _ Hne), String.eqb_refl.
  rewrite (getitem_Some _ _ _ Hs). cbn. split.
  - now eexists _, _, _, _.
  - reflexivity.
Qed.

(** The cluster-type dispatch of the two builders, for a type that is
    neither of the two tags. *)
Lemma unrecognized_cluster_type
    (cluster : Cluster.t) (recipe_bakery : RecipeBakery.t)
    (recipe_name : string) (secrets : gmap string string) :
  Cluster.type cluster ≠ FARGATE_CLUSTER →
  Cluster.type cluster ≠ AKS_CLUSTER →
  configure_dask_executor cluster recipe_bakery recipe_name secrets
  = Raise UnsupportedClusterType
  ∧ configure_run_config cluster recipe_bakery recipe_name secrets
    = Raise UnsupportedClusterType.
Proof.
  intros Hf Ha. unfold configure_dask_executor, configure_run_config.
  now rewrite (eqb_other _ _ Hf), (eqb_other _ _ Ha).
Qed.

Lemma first_failure_gate (meta : Meta.t) (cluster : Cluster.t)
    (versions : Versions.t) :
  check_versions meta cluster versions
  = match first_failure (version_checks meta cluster versions) with
    | Some e => Raise e
    | None => Return true
    end.
Proof.
  unfold check_versions, version_checks, str_ne. cbn.
  rewrite (String.eqb_sym (Cluster.prefect_version cluster)).
  repeat (destruct (String.eqb _ _); cbn; try reflexivity).
Qed.

End ExecutorProperties.

(** C5 on a concrete cluster, without a hint. *)
Lemma configure_dask_executor_fargate_witness :
  ∃ executor : DaskExecutor,
    configure_dask_executor (tags := sample_tags)
      (sample_cluster "aws.fargate" "s3") (sample_recipe_bakery None) "foo"
      sample_secrets = Return executor
    ∧ assoc "worker_cpu" (cluster_kwargs executor) = Some (PInt 1024)
    ∧ assoc "worker_mem" (cluster_kwargs executor) = Some (PInt 4096)
    ∧ assoc "scheduler_cpu" (cluster_kwargs executor) = Some (PInt 2048)
    ∧ assoc "scheduler_mem" (cluster_kwargs executor) = Some (PInt 16384)
    ∧ adapt_kwargs executor = [ ("minimum", PInt 5); ("maximum", PInt 10) ].
Proof.
  apply (configure_dask_executor_fargate (tags := sample_tags)
           (sample_cluster "aws.fargate" "s3") (sample_recipe_bakery None)
           "foo" sample_secrets).
  reflexivity.
Defined.

(** C4, the claim as stated fails: without a hint the worker size resolves to
    250 millicores and 512 mebibytes, and the scheduler template asks for
    2048m and 10000Mi. *)
Lemma scheduler_template_not_worker_sized :
  ¬ both_templates_request_worker_size (tags := sample_tags)
      (sample_cluster "azure.aks" "abfs") (sample_recipe_bakery None) "foo"
      sample_secrets.
Proof.
  intros (executor & scheduler & worker & He & Hs & _ & [Hcpu _] & _).
  vm_compute in He. injection He as <-.
  vm_compute in Hs. injection Hs as <-.
  vm_compute in Hcpu. discriminate Hcpu.
Qed.

(** C4 on a concrete cluster, with a hint of 500 millicores and 2048
    mebibytes. *)
Lemma configure_dask_executor_aks_witness :
  ∃ (executor : DaskExecutor) (scheduler worker : pod_template),
    configure_dask_executor (tags := sample_tags)
      (sample_cluster "azure.aks" "abfs")
      (sample_recipe_bakery (Some (Resources.mk 2048 500))) "foo" sample_secrets
    = Return executor
    ∧ kwarg_pod "scheduler_pod_template" executor = Some scheduler
    ∧ kwarg_pod "pod_template" executor = Some worker
    ∧ requests worker 500 2048
    ∧ pod_env worker
      = [ ("AZURE_STORAGE_CONNECTION_STRING", "DefaultEndpointsProtocol=https") ]
    ∧ requests scheduler 2048 10000
    ∧ pod_env scheduler = [].
Proof.
  apply (configure_dask_executor_aks (tags := sample_tags)
           (sample_cluster "azure.aks" "abfs")
           (sample_recipe_bakery (Some (Resources.mk 2048 500))) "foo"
           sample_secrets "DefaultEndpointsProtocol=https").
  - reflexivity.
  - discriminate.
  - reflexivity.
Defined.

(** C10, the claim as stated fails: on a container-orchestrator cluster
    and secrets that lack the flow-storage secret there is no run
    configuration at all, [configure_run_config] raises [KeyError]. *)
Lemma configure_run_config_needs_secret :
  ¬ driver_gets_fixed_requests (tags := sample_tags)
      (sample_cluster "azure.aks" "abfs") (sample_recipe_bakery None) "foo" ∅.
Proof.
  intros (job_template & image & labels & env & E).
  vm_compute in E. discriminate E.
Qed.

(** C10 on a concrete cluster, with a hint of 500 millicores and 2048
    mebibytes. *)
Lemma configure_run_config_aks_fixed_requests_witness :
  driver_gets_fixed_requests (tags := sample_tags)
    (sample_cluster "azure.aks" "abfs")
    (sample_recipe_bakery (Some (Resources.mk 2048 500))) "foo" sample_secrets.
Proof.
  refine (proj1 (configure_run_config_aks_fixed_requests (tags := sample_tags)
                   (sample_cluster "azure.aks" "abfs")
                   (sample_recipe_bakery (Some (Resources.mk 2048 500)))
                   "foo" sample_secrets "DefaultEndpointsProtocol=https" _ _ _)).
  - reflexivity.
  - discriminate.
  - reflexivity.
Defined.

(** ** The state-and-exception monad *)

Section Monad.
Context {σ : Type}.

Lemma bind_Return {A B : Type} (m : ST σ A) (f : A → ST σ B) (s s' : σ) (a : A) :
  m s = (Return a, s') → (m ≫= f) s = f a s'.
Proof. intros E. unfold mbind, ST_bind. now rewrite E. Qed.

Lemma bind_Raise {A B : Type} (m : ST σ A) (f : A → ST σ B) (s s' : σ) (e : exn) :
  m s = (Raise e, s') → (m ≫= f) s = (Raise e, s').
Proof. intros E. unfold mbind, ST_bind. now rewrite E. Qed.

End Monad.

(** ** The wrapper around a task's [run] *)

(** C8.  Calling the wrapped function is calling the function itself once
    the [pangeo_forge_recipes] logger has been set to [DEBUG]: same value or
    same exception, same final state. *)
Theorem set_log_level_transparent {S : Type} (func : task_fn S)
    (args : list pyval) (kwargs : list (string * pyval)) (rt : runtime S) :
  let configured :=
    with_logging (setLevel "pangeo_forge_recipes" DEBUG)
      (with_logging basicConfig rt) in
  logger_levels (logging configured) !! "pangeo_forge_recipes" = Some DEBUG
  ∧ process configured = process rt
  ∧ set_log_level func args kwargs rt = func args kwargs configured.
Proof.
  cbn. split; [apply lookup_insert_eq|]. split; [reflexivity|].
  unfold set_log_level, mbind, ST_bind, modify, mret, ST_ret. cbn.
  now destruct (func args kwargs _) as [[v|e] rt'].
Qed.

(** ** Assembly of one flow *)

Section AssemblyProperties.
Context {tags : BakeryTags} {adlfs : Adlfs} {S : Type}.
Variable to_prefect : Recipe.t → Flow.t S.
Variable copy_pruned : Recipe.t → Recipe.t.

Lemma decorate_policy (delta : timedelta) (flow_task : Task.t S) :
  Task.max_retries (decorate delta flow_task) = 3
  ∧ Task.retry_delay (decorate delta flow_task) = Some delta
  ∧ Task.run (decorate delta flow_task) = set_log_level (Task.run flow_task).
Proof. now unfold decorate. Qed.

(** The recipe object once its three slots are assigned. *)
Lemma bound_after_assignments (targets : Targets.t) (recipe : Recipe.t) :
  bound_to targets
    (set_metadata_cache (Targets.metadata targets)
       (set_input_cache (Targets.cache targets)
          (set_target (Targets.target targets) recipe))).
Proof. now unfold bound_to. Qed.

(** C6.  [recipe_to_flow] raises only when it was handed no targets or when
    one of the three resolvers raises.  Otherwise it returns a flow named
    after the recipe id, with one task for each task of the job form of the
    recipe (pruned or not), however many there are, each with
    [max_retries = 3] and a retry delay of three minutes, that is 180
    seconds. *)
Theorem recipe_to_flow_retry_policy
    (bakery : Bakery.t) (meta : Meta.t) (recipe_id : string) (recipe : nat)
    (targets : option Targets.t) (secrets : gmap string string) (prune : bool)
    (w : world S) :
  match recipe_to_flow to_prefect copy_pruned bakery meta recipe_id recipe
          targets secrets prune w with
  | (Return flow, w') =>
      Flow.name flow = recipe_id
      ∧ Forall (λ flow_task,
                 Task.max_retries flow_task = 3
                 ∧ ∃ delta, Task.retry_delay flow_task = Some delta
                            ∧ total_seconds delta = 180
                            ∧ microseconds delta = 0)
          (Flow.tasks flow)
      ∧ length (Flow.tasks flow)
        = length (Flow.tasks
                    (to_prefect (if prune then copy_pruned (objects w' recipe)
                                 else objects w' recipe)))
  | (Raise e, _) =>
      targets = None
      ∨ configure_dask_executor (Bakery.cluster bakery) (Meta.bakery meta)
          recipe_id secrets = Raise e
      ∨ configure_flow_storage (Bakery.cluster bakery) secrets = Raise e
      ∨ configure_run_config (Bakery.cluster bakery) (Meta.bakery meta)
          recipe_id secrets = Raise e
  end.
Proof.
  unfold recipe_to_flow, update_object, log, modify, get, lift, mbind, ST_bind,
    mret, ST_ret.
  destruct targets as [t|]; [|now left]. cbn.
  destruct (configure_dask_executor _ _ _ _) as [executor|e1]; [|now right; left].
  destruct (configure_flow_storage _ _) as [storage|e2];
    [|now right; right; left].
  destruct (configure_run_config _ _ _ _) as [run_config|e3];
    [|now right; right; right].
  cbn. split; [reflexivity|]. split.
  - apply Forall_map, Forall_true. intros flow_task. cbn.
    split; [reflexivity|]. now exists (timedelta_minutes 3).
  - now rewrite length_map.
Qed.

(** C9.  With resolved targets in hand, if one of the three resolvers raises
    then [recipe_to_flow] raises, and by then the caller's recipe object
    carries the three handles; no other object has changed. *)
Theorem recipe_to_flow_not_atomic
    (bakery : Bakery.t) (meta : Meta.t) (recipe_id : string) (recipe : nat)
    (targets : Targets.t) (secrets : gmap string string) (prune : bool)
    (w : world S) (e : exn) :
  configure_dask_executor (Bakery.cluster bakery) (Meta.bakery meta) recipe_id
    secrets = Raise e
  ∨ configure_flow_storage (Bakery.cluster bakery) secrets = Raise e
  ∨ configure_run_config (Bakery.cluster bakery) (Meta.bakery meta) recipe_id
      secrets = Raise e →
  ∃ (e' : exn) (w' : world S),
    recipe_to_flow to_prefect copy_pruned bakery meta recipe_id recipe
      (Some targets) secrets prune w = (Raise e', w')
    ∧ bound_to targets (objects w' recipe)
    ∧ ∀ other : nat, other ≠ recipe → objects w' other = objects w other.
Proof.
  intros Hraise.
  unfold recipe_to_flow, update_object, log, modify, get, lift, mbind, ST_bind,
    mret, ST_ret.
  cbn.
  set (objs := <[recipe := set_metadata_cache _ _]> _).
  assert (Hbound : bound_to targets (objs recipe)).
  { subst objs. rewrite !fn_lookup_insert. apply bound_after_assignments. }
  assert (Hother : ∀ other, other ≠ recipe → objs other = objects w other).
  { intros other Hne. subst objs. now rewrite !fn_lookup_insert_ne by congruence. }
  clearbody objs.
  destruct (configure_dask_executor _ _ _ _) as [executor|e1].
  2:{ eexists _, _. split; [reflexivity|]. split; [apply Hbound|apply Hother]. }
  destruct (configure_flow_storage _ _) as [storage|e2].
  2:{ eexists _, _. split; [reflexivity|]. split; [apply Hbound|apply Hother]. }
  destruct (configure_run_config _ _ _ _) as [run_config|e3].
  2:{ eexists _, _. split; [reflexivity|]. split; [apply Hbound|apply Hother]. }
  destruct Hraise as [Hr|[Hr|Hr]]; discriminate Hr.
Qed.

End AssemblyProperties.
(** ** Registration *)

Create HintDb quiet.

Section Quiet.
Context {S : Type}.

Lemma registered_log (e : event S) (w : world S) :
  registered (log e w).2
  = (registered w ++ match e with
                     | Register flow project_name => [(flow, project_name)]
                     | _ => []
                     end)%list.
Proof.
  unfold registered, log, modify. cbn. rewrite omap_app. f_equal.
  now destruct e.
Qed.

Lemma quiet_log (e : event S) : registration e = false → quiet (log e).
Proof.
  intros He w. rewrite registered_log.
  destruct e; try discriminate He; apply app_nil_r.
Qed.

Lemma quiet_ret {A : Type} (a : A) : quiet (S := S) (mret a).
Proof. now intros w. Qed.

Lemma quiet_lift {A : Type} (r : result A) : quiet (S := S) (lift r).
Proof. now intros w. Qed.

Lemma quiet_get : quiet (S := S) get.
Proof. now intros w. Qed.

Lemma quiet_update_object (address : nat) (f : Recipe.t → Recipe.t) :
  quiet (S := S) (update_object address f).
Proof. now intros w. Qed.

Lemma quiet_bind {A B : Type} (m : ST (world S) A) (f : A → ST (world S) B) :
  quiet m → (∀ a, quiet (f a)) → quiet (m ≫= f).
Proof.
  intros Hm Hf w. specialize (Hm w). unfold mbind, ST_bind.
  destruct (m w) as [[a|e] w1]; cbn in *.
  - now rewrite Hf.
  - exact Hm.
Qed.

Lemma quiet_for_each {A : Type} (body : A → ST (world S) unit) (xs : list A) :
  (∀ x, quiet (body x)) → quiet (for_each body xs).
Proof.
  intros Hbody. induction xs as [|x xs IH]; cbn.
  - apply quiet_ret.
  - apply quiet_bind; [apply Hbody|]. intros _. exact IH.
Qed.

Lemma fails_quietly_quiet {A : Type} (m : ST (world S) A) :
  fails_quietly m → quiet m.
Proof. intros Hm w. apply Hm. Qed.

Lemma fails_quietly_lift {A : Type} (e : exn) :
  fails_quietly (S := S) (lift (A := A) (Raise e)).
Proof. intros w. split; [now exists e|reflexivity]. Qed.

Lemma fails_quietly_bind_l {A B : Type} (m : ST (world S) A)
    (f : A → ST (world S) B) :
  fails_quietly m → fails_quietly (m ≫= f).
Proof.
  intros Hm w. destruct (Hm w) as [[e He] Hr]. unfold mbind, ST_bind.
  destruct (m w) as [[a|e'] w1]; cbn in *; [discriminate He|].
  split; [now exists e'|exact Hr].
Qed.

Lemma fails_quietly_bind_r {A B : Type} (m : ST (world S) A)
    (f : A → ST (world S) B) :
  quiet m → (∀ a, fails_quietly (f a)) → fails_quietly (m ≫= f).
Proof.
  intros Hm Hf w. specialize (Hm w). unfold mbind, ST_bind.
  destruct (m w) as [[a|e] w1]; cbn in *.
  - destruct (Hf a w1) as [He Hr]. split; [exact He|]. now rewrite Hr.
  - split; [now exists e|exact Hm].
Qed.

End Quiet.

#[local] Hint Resolve quiet_ret quiet_lift quiet_get quiet_update_object
  quiet_bind quiet_for_each fails_quietly_quiet : quiet.
#[local] Hint Extern 1 (quiet (log _)) =>
  (apply quiet_log; reflexivity) : quiet.

Section OrchestratorProperties.
Context {tags : BakeryTags} {adlfs : Adlfs} {S : Type}.
Variable to_prefect : Recipe.t → Flow.t S.
Variable copy_pruned : Recipe.t → Recipe.t.
Variable get_module_attribute :
  string → string → (nat → Recipe.t) → result attribute * (nat → Recipe.t).
Variable flow_register : Flow.t S → string → result string.

Lemma quiet_load (meta_path attribute_path : string) :
  quiet (load (S := S) get_module_attribute meta_path attribute_path).
Proof.
  intros w. unfold load.
  now destruct (get_module_attribute _ _ _) as [r objs].
Qed.

(** Walk down a chain of binds: steps that register nothing are skipped
    until [close] shows that the step at hand always raises. *)
Ltac quiet_steps close :=
  repeat first
    [ solve [apply fails_quietly_bind_l; close]
    | apply fails_quietly_bind_r; [solve [auto with quiet]|intros ?] ].

Lemma recipe_to_flow_fails_quietly
    (bakery : Bakery.t) (meta : Meta.t) (recipe_id : string) (recipe : nat)
    (targets : option Targets.t) (secrets : gmap string string) (prune : bool) :
  Cluster.type (Bakery.cluster bakery) ≠ FARGATE_CLUSTER →
  Cluster.type (Bakery.cluster bakery) ≠ AKS_CLUSTER →
  fails_quietly
    (recipe_to_flow to_prefect copy_pruned bakery meta recipe_id recipe targets
       secrets prune).
Proof.
  intros Hf Ha. unfold recipe_to_flow.
  rewrite (proj1 (unrecognized_cluster_type _ _ _ _ Hf Ha)).
  quiet_steps ltac:(apply fails_quietly_lift).
Qed.

Lemma register_recipe_fails_quietly
    (environ : gmap string string) (bakery : Bakery.t) (meta : Meta.t)
    (secrets : gmap string string) (prune : bool) (project_name : string)
    (comment_id : option string) (key : string) (value : attribute) :
  Cluster.type (Bakery.cluster bakery) ≠ FARGATE_CLUSTER →
  Cluster.type (Bakery.cluster bakery) ≠ AKS_CLUSTER →
  fails_quietly
    (register_recipe to_prefect copy_pruned flow_register environ bakery meta
       secrets prune project_name comment_id key value).
Proof.
  intros Hf Ha. unfold register_recipe.
  destruct value as [recipe|items]; [|apply fails_quietly_lift].
  quiet_steps ltac:(now apply recipe_to_flow_fails_quietly).
Qed.

(** C7.  When the cluster type of the manifest's bakery is neither of the
    two tags, both builders raise [UnsupportedClusterType], and
    [register_flow] ends with the list of registered jobs as it found it:
    nothing is registered for the batch. *)
Theorem unrecognized_cluster_registers_nothing
    (environ : gmap string string) (meta_path : string) (meta : Meta.t)
    (bakeries_dict : gmap string Bakery.t) (secrets : gmap string string)
    (versions : Versions.t) (prune : bool) (bakery : Bakery.t)
    (recipe_name : string) (w : world S) :
  bakeries_dict !! RecipeBakery.id (Meta.bakery meta) = Some bakery →
  Cluster.type (Bakery.cluster bakery) ≠ FARGATE_CLUSTER →
  Cluster.type (Bakery.cluster bakery) ≠ AKS_CLUSTER →
  configure_dask_executor (Bakery.cluster bakery) (Meta.bakery meta)
    recipe_name secrets = Raise UnsupportedClusterType
  ∧ configure_run_config (Bakery.cluster bakery) (Meta.bakery meta)
      recipe_name secrets = Raise UnsupportedClusterType
  ∧ registered
      (register_flow to_prefect copy_pruned get_module_attribute flow_register
         environ meta_path meta bakeries_dict secrets versions prune w).2
    = registered w.
Proof.
  intros Hb Hf Ha.
  destruct (unrecognized_cluster_type (Bakery.cluster bakery)
              (Meta.bakery meta) recipe_name secrets Hf Ha) as [He Hr].
  split; [exact He|]. split; [exact Hr|].
  revert w. change (quiet (register_flow to_prefect copy_pruned
    get_module_attribute flow_register environ meta_path meta bakeries_dict
    secrets versions prune)).
  unfold register_flow. rewrite (getitem_Some _ _ _ Hb).
  intros w. rewrite (bind_Return _ _ w w bakery) by reflexivity. revert w.
  match goal with |- ∀ w, registered (?m w).2 = registered w =>
    change (quiet m) end.
  repeat (apply quiet_bind; [auto with quiet|intros ?]).
  apply quiet_for_each. intros recipe_meta.
  destruct (truthy (RecipeMeta.dict_object recipe_meta)).
  - apply quiet_bind; [apply quiet_load|]. intros recipes_dict.
    apply quiet_bind; [auto with quiet|]. intros items.
    apply quiet_for_each. intros [key value].
    now apply fails_quietly_quiet, register_recipe_fails_quietly.
  - apply quiet_bind; [apply quiet_load|]. intros recipe.
    now apply fails_quietly_quiet, register_recipe_fails_quietly.
Qed.

(** C2.  [check_versions] raises the exception of the first of the five
    comparisons that fails, in the order notebook against runtime, notebook
    against cluster, framework against runtime, framework against cluster,
    engine of the cluster against the runtime's, and returns [True] when none
    fails; and when it raises, [register_flow] raises the same exception in
    an unchanged world: no module was loaded, no resolver was called, no
    recipe was touched, nothing was sent to the engine. *)
Theorem version_gate_halts_batch
    (environ : gmap string string) (meta_path : string) (meta : Meta.t)
    (bakeries_dict : gmap string Bakery.t) (secrets : gmap string string)
    (versions : Versions.t) (prune : bool) (bakery : Bakery.t) (w : world S) :
  check_versions meta (Bakery.cluster bakery) versions
  = match first_failure (version_checks meta (Bakery.cluster bakery) versions) with
    | Some e => Raise e
    | None => Return true
    end
  ∧ (bakeries_dict !! RecipeBakery.id (Meta.bakery meta) = Some bakery →
     ∀ e : exn,
       first_failure (version_checks meta (Bakery.cluster bakery) versions)
       = Some e →
       register_flow to_prefect copy_pruned get_module_attribute flow_register
         environ meta_path meta bakeries_dict secrets versions prune w
       = (Raise e, w)).
Proof.
  split; [apply first_failure_gate|].
  intros Hb e He. unfold register_flow.
  rewrite (getitem_Some _ _ _ Hb).
  rewrite (bind_Return _ _ w w bakery) by reflexivity.
  apply bind_Raise. unfold lift.
  now rewrite first_failure_gate, He.
Qed.

End OrchestratorProperties.

(** ** The properties on concrete inputs *)

(** C6 on a Fargate bakery: the two tasks of the sample job come out with
    the retry policy, under the recipe's id. *)
Lemma recipe_to_flow_retry_policy_witness :
  ∃ (flow : Flow.t unit) (w' : world unit),
    recipe_to_flow (tags := sample_tags) sample_to_prefect sample_copy_pruned
      (sample_bakery (sample_cluster "aws.fargate" "s3") (sample_target "s3" None))
      (sample_meta None) "foo" 0%nat (Some sample_targets) sample_secrets false
      sample_world = (Return flow, w')
    ∧ Flow.name flow = "foo"
    ∧ Forall (λ flow_task,
               Task.max_retries flow_task = 3
               ∧ ∃ delta, Task.retry_delay flow_task = Some delta
                          ∧ total_seconds delta = 180
                          ∧ microseconds delta = 0)
        (Flow.tasks flow)
    ∧ length (Flow.tasks flow) = 2%nat.
Proof.
  pose proof (recipe_to_flow_retry_policy (tags := sample_tags)
                sample_to_prefect sample_copy_pruned
                (sample_bakery (sample_cluster "aws.fargate" "s3")
                   (sample_target "s3" None))
                (sample_meta None) "foo" 0%nat (Some sample_targets)
                sample_secrets false sample_world) as Hpolicy.
  destruct (recipe_to_flow (tags := sample_tags) sample_to_prefect
              sample_copy_pruned
              (sample_bakery (sample_cluster "aws.fargate" "s3")
                 (sample_target "s3" None))
              (sample_meta None) "foo" 0%nat (Some sample_targets)
              sample_secrets false sample_world) as [[flow|e] w'] eqn:E.
  - exists flow, w'. split; [reflexivity|]. exact Hpolicy.
  - vm_compute in E. discriminate E.
Defined.

(** C9 on a bakery whose cluster type no builder knows: the call raises and
    the recipe at address 0 is left bound to the targets. *)
Lemma recipe_to_flow_not_atomic_witness :
  ∃ (e' : exn) (w' : world unit),
    recipe_to_flow (tags := sample_tags) sample_to_prefect sample_copy_pruned
      (sample_bakery (sample_cluster "gcp.gke" "s3") (sample_target "s3" None))
      (sample_meta None) "foo" 0%nat (Some sample_targets) sample_secrets false
      sample_world = (Raise e', w')
    ∧ bound_to sample_targets (objects w' 0%nat)
    ∧ ∀ other : nat, other ≠ 0%nat → objects w' other = objects sample_world other.
Proof.
  apply (recipe_to_flow_not_atomic (tags := sample_tags) sample_to_prefect
           sample_copy_pruned
           (sample_bakery (sample_cluster "gcp.gke" "s3") (sample_target "s3" None))
           (sample_meta None) "foo" 0%nat sample_targets sample_secrets false
           sample_world UnsupportedClusterType).
  left. reflexivity.
Defined.

(** C7 on a bakery table whose cluster type no builder knows. *)
Lemma unrecognized_cluster_registers_nothing_witness :
  registered
    (register_flow (tags := sample_tags) (adlfs := sample_adlfs) sample_to_prefect sample_copy_pruned
       sample_loader sample_flow_register sample_environ "feedstock/meta.yaml"
       (sample_meta None) (sample_bakeries (sample_cluster "gcp.gke" "s3"))
       sample_secrets sample_versions false sample_world).2
  = [].
Proof.
  refine (proj2 (proj2 (unrecognized_cluster_registers_nothing
            (tags := sample_tags) (adlfs := sample_adlfs) sample_to_prefect sample_copy_pruned
            sample_loader sample_flow_register sample_environ
            "feedstock/meta.yaml" (sample_meta None)
            (sample_bakeries (sample_cluster "gcp.gke" "s3")) sample_secrets
            sample_versions false
            (sample_bakery (sample_cluster "gcp.gke" "s3")
               (sample_target "s3"
                  (Some (StorageOptions.mk "BAKERY_KEY" "BAKERY_SECRET"))))
            "foo" sample_world _ _ _))).
  - reflexivity.
  - discriminate.
  - discriminate.
Defined.

(** C2 on a cluster whose notebook version differs from the manifest's. *)
Lemma version_gate_halts_batch_witness :
  register_flow (tags := sample_tags) (adlfs := sample_adlfs) sample_to_prefect sample_copy_pruned
    sample_loader sample_flow_register sample_environ "feedstock/meta.yaml"
    (sample_meta None) (sample_bakeries sample_stale_cluster) sample_secrets
    sample_versions false sample_world
  = (Raise UnsupportedPangeoVersion, sample_world).
Proof.
  refine (proj2 (version_gate_halts_batch (tags := sample_tags) (adlfs := sample_adlfs)
            sample_to_prefect sample_copy_pruned sample_loader
            sample_flow_register sample_environ "feedstock/meta.yaml"
            (sample_meta None) (sample_bakeries sample_stale_cluster)
            sample_secrets sample_versions false
            (sample_bakery sample_stale_cluster
               (sample_target "s3"
                  (Some (StorageOptions.mk "BAKERY_KEY" "BAKERY_SECRET"))))
            sample_world) _ UnsupportedPangeoVersion _); reflexivity.
Defined.

(** ** The orchestrator on whole batches *)

(** A well-formed batch on a container-orchestrator bakery, with a
    correlation id: one job is registered, run and given its hook. *)
Example register_flow_registers_one_job :
  let run :=
    register_flow (tags := sample_tags) (adlfs := sample_adlfs) sample_to_prefect sample_copy_pruned
      sample_loader sample_flow_register
      (<["COMMENT_ID" := "42"]> sample_environ) "feedstock/meta.yaml"
      (sample_meta None) (sample_bakeries (sample_cluster "azure.aks" "abfs"))
      sample_secrets sample_versions false sample_world in
  run.1 = Return tt
  ∧ map (λ '(flow, project_name), (Flow.name flow, project_name))
      (registered run.2) = [ ("foo", "forge") ]
  ∧ filter (λ e, registration e = false) (calls run.2)
    = [ Client; ConfigureTargets "foo"; ConfigureDaskExecutor "foo";
        ConfigureFlowStorage; ConfigureRunConfig "foo";
        CreateFlowRun "flow-1" "42"; CreateAutomation "flow-1" "ghp" ].
Proof. vm_compute. repeat split. Qed.

(** A target without credential options: [configure_targets] hands [None]
    to [recipe_to_flow], and the batch stops on the attribute access. *)
Example missing_options_reach_the_assembler :
  let run :=
    register_flow (tags := sample_tags) (adlfs := sample_adlfs) sample_to_prefect sample_copy_pruned
      sample_loader sample_flow_register sample_environ "feedstock/meta.yaml"
      (sample_meta None)
      (<["bakery-1" := sample_bakery (sample_cluster "aws.fargate" "s3")
                         (sample_target "s3" None)]> ∅)
      sample_secrets sample_versions false sample_world in
  run.1 = Raise (AttributeError "NoneType" "target")
  ∧ calls run.2 = [ Client; ConfigureTargets "foo" ].
Proof. vm_compute. repeat split. Qed.

(** * Further properties of the resolvers *)

Section Strings.

Lemma append_assoc (a b c : string) : (a +:+ b) +:+ c = a +:+ (b +:+ c).
Proof.
  induction a as [|x a IH]; [reflexivity|].
  change (String x ((a +:+ b) +:+ c) = String x (a +:+ (b +:+ c))).
  now rewrite IH.
Qed.

Lemma length_append (a b : string) :
  String.length (a +:+ b) = (String.length a + String.length b)%nat.
Proof.
  induction a as [|x a IH]; [reflexivity|].
  change (S (String.length (a +:+ b)) = S (String.length a + String.length b)).
  now rewrite IH.
Qed.

Lemma append_inv_head (s a b : string) : s +:+ a = s +:+ b → a = b.
Proof.
  induction s as [|x s IH]; intros E; [exact E|].
  change (String x (s +:+ a) = String x (s +:+ b)) in E.
  injection E as E. now apply IH.
Qed.

Lemma append_inv_tail (a b s : string) : a +:+ s = b +:+ s → a = b.
Proof.
  revert b. induction a as [|x a IH]; intros [|y b] E.
  - reflexivity.
  - apply (f_equal String.length) in E.
    change (String.length s = S (String.length (b +:+ s))) in E.
    rewrite length_append in E. lia.
  - apply (f_equal String.length) in E.
    change (S (String.length (a +:+ s)) = String.length s) in E.
    rewrite length_append in E. lia.
  - change (String x (a +:+ s) = String y (b +:+ s)) in E.
    injection E as -> E. f_equal. now apply IH.
Qed.

End Strings.

Section MoreResolverProperties.
Context {tags : BakeryTags} {adlfs : Adlfs}.

(** X1.  For a connection-string (ABFS) target whose secret is found, the
    outcome rests with the filesystem library alone.  When it accepts the
    connection string, the three handles share one [AzureBlobFileSystem]
    opened with it and sit under [abfs://]; when it does not, its
    [ValueError] comes out.  The [key] option is never looked up. *)
Theorem configure_targets_abfs_paths
    (environ : gmap string string) (bakery : Bakery.t)
    (recipe_bakery : RecipeBakery.t) (recipe_name : string)
    (secrets : gmap string string) (extension : string)
    (target : Target.t) (options : StorageOptions.t)
    (repository secret : string) :
  Bakery.targets bakery !! RecipeBakery.target recipe_bakery = Some target →
  environ !! "GITHUB_REPOSITORY" = Some repository →
  Endpoint.protocol (Target.private target) ≠ S3_PROTOCOL →
  Endpoint.protocol (Target.private target) = ABFS_PROTOCOL →
  Endpoint.storage_options (Target.private target) = Some options →
  secrets !! StorageOptions.secret options = Some secret →
  configure_targets environ bakery recipe_bakery recipe_name secrets extension
  = if accepts_connection_string secret
    then Return (Some (Targets.mk
      (FSSpecTarget (AzureBlobFileSystem secret)
         ("abfs://" +:+ RecipeBakery.target recipe_bakery +:+ "/" +:+ repository
                    +:+ "/" +:+ recipe_name +:+ "." +:+ extension))
      (CacheFSSpecTarget (AzureBlobFileSystem secret)
         ("abfs://" +:+ RecipeBakery.target recipe_bakery +:+ "/" +:+ repository
                    +:+ "/" +:+ recipe_name +:+ "/cache"))
      (MetadataTarget (AzureBlobFileSystem secret)
         ("abfs://" +:+ RecipeBakery.target recipe_bakery +:+ "/" +:+ repository
                    +:+ "/" +:+ recipe_name +:+ "/cache/metadata"))))
    else Raise ValueError.
Proof.
  intros Ht Hr Hn Hp Ho Hs. unfold configure_targets.
  rewrite (getitem_Some _ _ _ Ht), (getitem_Some _ _ _ Hr). cbn.
  rewrite (eqb_other _ _ Hn), (eqb_tag _ _ Hp), Ho.
  rewrite (getitem_Some _ _ _ Hs). cbn. unfold connect_azure.
  now destruct (accepts_connection_string secret).
Qed.

(** X2.  Whatever the protocol, resolved targets have one layout: the three
    handles share a filesystem, the output is [stem.extension], the input
    cache is [stem/cache] and the metadata cache lies inside the input cache,
    at [stem/cache/metadata]. *)
Theorem configure_targets_layout
    (environ : gmap string string) (bakery : Bakery.t)
    (recipe_bakery : RecipeBakery.t) (recipe_name : string)
    (secrets : gmap string string) (extension : string) (targets : Targets.t) :
  configure_targets environ bakery recipe_bakery recipe_name secrets extension
  = Return (Some targets) →
  fs (Targets.cache targets) = fs (Targets.target targets)
  ∧ fs (Targets.metadata targets) = fs (Targets.target targets)
  ∧ handle_class (Targets.target targets) = FSSpecTargetClass
  ∧ handle_class (Targets.cache targets) = CacheFSSpecTargetClass
  ∧ handle_class (Targets.metadata targets) = MetadataTargetClass
  ∧ root_path (Targets.metadata targets)
    = root_path (Targets.cache targets) +:+ "/metadata"
  ∧ ∃ stem : string,
      root_path (Targets.target targets) = stem +:+ "." +:+ extension
      ∧ root_path (Targets.cache targets) = stem +:+ "/cache".
Proof.
  unfold configure_targets.
  destruct (getitem (Bakery.targets bakery) _) as [target|e]; [|discriminate].
  destruct (getitem environ _) as [repository|e]; [|discriminate]. cbn.
  destruct (String.eqb _ S3_PROTOCOL).
  - destruct (Endpoint.storage_options _) as [options|]; [|discriminate].
    destruct (getitem secrets (StorageOptions.key options)) as [key|e];
      [|discriminate].
    destruct (getitem secrets (StorageOptions.secret options)) as [secret|e];
      [|discriminate].
    cbn. intros E. injection E as <-. cbn.
    repeat (split; [reflexivity|]). split.
    + now rewrite !append_assoc.
    + exists ("s3://" +:+ RecipeBakery.target recipe_bakery +:+ "/"
                      +:+ repository +:+ "/" +:+ recipe_name).
      now rewrite !append_assoc.
  - destruct (String.eqb _ ABFS_PROTOCOL); [|discriminate].
    destruct (Endpoint.storage_options _) as [options|]; [|discriminate].
    destruct (getitem secrets (StorageOptions.secret options)) as [secret|e];
      [|discriminate].
    cbn. destruct (connect_azure secret) as [store|e]; [|discriminate].
    cbn. intros E. injection E as <-. cbn.
    repeat (split; [reflexivity|]). split.
    + now rewrite !append_assoc.
    + exists ("abfs://" +:+ RecipeBakery.target recipe_bakery +:+ "/"
                        +:+ repository +:+ "/" +:+ recipe_name).
      now rewrite !append_assoc.
Qed.

(** X3.  The two lookups come before the protocol dispatch: an unknown
    target name raises [KeyError] on that name, and a known target without
    [GITHUB_REPOSITORY] in the environment raises [KeyError] on it, whatever
    the protocol and whatever the secrets hold. *)
Theorem configure_targets_lookups_first
    (environ : gmap string string) (bakery : Bakery.t)
    (recipe_bakery : RecipeBakery.t) (recipe_name : string)
    (secrets : gmap string string) (extension : string) :
  (Bakery.targets bakery !! RecipeBakery.target recipe_bakery = None →
   configure_targets environ bakery recipe_bakery recipe_name secrets extension
   = Raise (KeyError (RecipeBakery.target recipe_bakery)))
  ∧ (is_Some (Bakery.targets bakery !! RecipeBakery.target recipe_bakery) →
     environ !! "GITHUB_REPOSITORY" = None →
     configure_targets environ bakery recipe_bakery recipe_name secrets extension
     = Raise (KeyError "GITHUB_REPOSITORY")).
Proof.
  unfold configure_targets, getitem. split.
  - now intros ->.
  - intros [target ->] ->. reflexivity.
Qed.

(** X4.  With credential options on a recognized protocol the resolver never
    returns [None].  It returns targets only when every credential it needs
    is found (and, for the connection string, accepted by the filesystem
    library).  Otherwise it raises: [KeyError] on the first credential name
    that [secrets] lacks ([key] before [secret] for the object store,
    [secret] alone for the connection string), or the library's [ValueError]
    on a connection string that is found and not accepted. *)
Theorem configure_targets_with_options
    (environ : gmap string string) (bakery : Bakery.t)
    (recipe_bakery : RecipeBakery.t) (recipe_name : string)
    (secrets : gmap string string) (extension : string)
    (target : Target.t) (options : StorageOptions.t) (repository : string) :
  Bakery.targets bakery !! RecipeBakery.target recipe_bakery = Some target →
  environ !! "GITHUB_REPOSITORY" = Some repository →
  recognized_protocol (Endpoint.protocol (Target.private target)) = true →
  Endpoint.storage_options (Target.private target) = Some options →
  match configure_targets environ bakery recipe_bakery recipe_name secrets
          extension with
  | Return (Some _) =>
      if String.eqb (Endpoint.protocol (Target.private target)) S3_PROTOCOL
      then is_Some (secrets !! StorageOptions.key options)
           ∧ is_Some (secrets !! StorageOptions.secret options)
      else ∃ secret,
             secrets !! StorageOptions.secret options = Some secret
             ∧ accepts_connection_string secret = true
  | Return None => False
  | Raise e =>
      if String.eqb (Endpoint.protocol (Target.private target)) S3_PROTOCOL
      then (secrets !! StorageOptions.key options = None
            ∧ e = KeyError (StorageOptions.key options))
           ∨ (is_Some (secrets !! StorageOptions.key options)
              ∧ secrets !! StorageOptions.secret options = None
              ∧ e = KeyError (StorageOptions.secret options))
      else (secrets !! StorageOptions.secret options = None
            ∧ e = KeyError (StorageOptions.secret options))
           ∨ (∃ secret,
                secrets !! StorageOptions.secret options = Some secret
                ∧ accepts_connection_string secret = false
                ∧ e = ValueError)
  end.
Proof.
  intros Ht Hr Hp Ho. unfold configure_targets, recognized_protocol in *.
  rewrite (getitem_Some _ _ _ Ht), (getitem_Some _ _ _ Hr). cbn.
  rewrite Ho. unfold getitem.
  destruct (String.eqb _ S3_PROTOCOL) eqn:Es3.
  - destruct (secrets !! StorageOptions.key options) as [key|]; cbn.
    + destruct (secrets !! StorageOptions.secret options) as [secret|]; cbn.
      * split; eauto.
      * right. split; [eauto|]. now split.
    + left. now split.
  - cbn in Hp. rewrite Hp.
    destruct (secrets !! StorageOptions.secret options) as [secret|]; cbn.
    + unfold connect_azure.
      destruct (accepts_connection_string secret) eqn:Eok; cbn.
      * now exists secret.
      * right. now exists secret.
    + left. now split.
Qed.

(** X5.  Within one bakery target and repository, recipes with different
    names never share a path: each of the three paths determines the recipe
    name. *)
Theorem configure_targets_paths_injective
    (environ : gmap string string) (bakery : Bakery.t)
    (recipe_bakery : RecipeBakery.t) (name1 name2 : string)
    (secrets : gmap string string) (extension : string)
    (targets1 targets2 : Targets.t) :
  configure_targets environ bakery recipe_bakery name1 secrets extension
  = Return (Some targets1) →
  configure_targets environ bakery recipe_bakery name2 secrets extension
  = Return (Some targets2) →
  root_path (Targets.target targets1) = root_path (Targets.target targets2)
  ∨ root_path (Targets.cache targets1) = root_path (Targets.cache targets2)
  ∨ root_path (Targets.metadata targets1) = root_path (Targets.metadata targets2) →
  name1 = name2.
Proof.
  unfold configure_targets.
  destruct (getitem (Bakery.targets bakery) _) as [target|e]; [|discriminate].
  destruct (getitem environ _) as [repository|e]; [|discriminate]. cbn.
  destruct (String.eqb _ S3_PROTOCOL).
  - destruct (Endpoint.storage_options _) as [options|]; [|discriminate].
    destruct (getitem secrets (StorageOptions.key options)) as [key|e];
      [|discriminate].
    destruct (getitem secrets (StorageOptions.secret options)) as [secret|e];
      [|discriminate].
    cbn. intros E1 E2. injection E1 as <-. injection E2 as <-. cbn.
    intros [E|[E|E]];
      do 5 apply append_inv_head in E; now apply append_inv_tail in E.
  - destruct (String.eqb _ ABFS_PROTOCOL); [|discriminate].
    destruct (Endpoint.storage_options _) as [options|]; [|discriminate].
    destruct (getitem secrets (StorageOptions.secret options)) as [secret|e];
      [|discriminate].
    cbn. destruct (connect_azure secret) as [store|e]; [|discriminate].
    cbn. intros E1 E2. injection E1 as <-. injection E2 as <-. cbn.
    intros [E|[E|E]];
      do 5 apply append_inv_head in E; now apply append_inv_tail in E.
Qed.

End MoreResolverProperties.

Section MoreBuilderProperties.
Context {tags : BakeryTags} {adlfs : Adlfs}.

(** X6.  [configure_flow_storage] returns a storage exactly when the
    protocol is the object-store one and both credentials are found (an [S3]
    storage on the cluster's bucket, holding the two credentials), or the
    protocol is the connection-string one and the secret is found (an [Azure]
    storage on the cluster's container; the key is not needed). *)
Theorem configure_flow_storage_returns
    (cluster : Cluster.t) (secrets : gmap string string) (storage : FlowStorage) :
  configure_flow_storage cluster secrets = Return storage ↔
  (Cluster.flow_storage_protocol cluster = S3_PROTOCOL
   ∧ ∃ key secret,
       secrets !! StorageOptions.key (Cluster.flow_storage_options cluster)
       = Some key
       ∧ secrets !! StorageOptions.secret (Cluster.flow_storage_options cluster)
         = Some secret
       ∧ storage = S3 (Cluster.flow_storage cluster)
                     [ ("aws_access_key_id", key);
                       ("aws_secret_access_key", secret) ])
  ∨ (Cluster.flow_storage_protocol cluster ≠ S3_PROTOCOL
     ∧ Cluster.flow_storage_protocol cluster = ABFS_PROTOCOL
     ∧ ∃ secret,
         secrets !! StorageOptions.secret (Cluster.flow_storage_options cluster)
         = Some secret
         ∧ storage = Azure (Cluster.flow_storage cluster) secret).
Proof.
  unfold configure_flow_storage, getitem.
  destruct (String.eqb _ S3_PROTOCOL) eqn:Es3.
  - apply String.eqb_eq in Es3. split.
    + destruct (secrets !! StorageOptions.key _) as [key|]; [|discriminate].
      destruct (secrets !! StorageOptions.secret _) as [secret|]; [|discriminate].
      cbn. intros E. injection E as <-. left. split; [exact Es3|].
      now exists key, secret.
    + intros [(_ & key & secret & -> & -> & ->)|(Hne & _)];
        [reflexivity|contradiction].
  - apply String.eqb_neq in Es3.
    destruct (String.eqb _ ABFS_PROTOCOL) eqn:Eabfs.
    + apply String.eqb_eq in Eabfs. split.
      * destruct (secrets !! StorageOptions.secret _) as [secret|];
          [|discriminate].
        cbn. intros E. injection E as <-. right.
        split; [exact Es3|]. split; [exact Eabfs|]. now exists secret.
      * intros [(Heq & _)|(_ & _ & secret & -> & ->)];
          [contradiction|reflexivity].
    + apply String.eqb_neq in Eabfs. split; [discriminate|].
      intros [(Heq & _)|(_ & Heq & _)]; contradiction.
Qed.

(** X7.  When [configure_flow_storage] raises, it is [UnsupportedFlowStorage]
    for a protocol that is neither tag, and otherwise [KeyError] on the first
    credential name that [secrets] lacks; an unrecognized protocol is
    rejected without a look at the secrets. *)
Theorem configure_flow_storage_raises
    (cluster : Cluster.t) (secrets : gmap string string) (e : exn) :
  configure_flow_storage cluster secrets = Raise e →
  (e = UnsupportedFlowStorage
   ∧ Cluster.flow_storage_protocol cluster ≠ S3_PROTOCOL
   ∧ Cluster.flow_storage_protocol cluster ≠ ABFS_PROTOCOL
   ∧ ∀ secrets', configure_flow_storage cluster secrets'
                 = Raise UnsupportedFlowStorage)
  ∨ (∃ name, e = KeyError name ∧ secrets !! name = None
             ∧ (name = StorageOptions.key (Cluster.flow_storage_options cluster)
                ∨ name = StorageOptions.secret
                           (Cluster.flow_storage_options cluster))).
Proof.
  unfold configure_flow_storage, getitem.
  destruct (String.eqb _ S3_PROTOCOL) eqn:Es3.
  - destruct (secrets !! StorageOptions.key _) as [key|] eqn:Ek; cbn.
    + destruct (secrets !! StorageOptions.secret _) as [secret|] eqn:Esec; cbn;
        [discriminate|].
      intros E. injection E as <-. right. eexists. eauto.
    + intros E. injection E as <-. right. eexists. eauto.
  - destruct (String.eqb _ ABFS_PROTOCOL) eqn:Eabfs.
    + destruct (secrets !! StorageOptions.secret _) as [secret|] eqn:Esec; cbn;
        [discriminate|].
      intros E. injection E as <-. right. eexists. eauto.
    + intros E. injection E as <-. left.
      apply String.eqb_neq in Es3. apply String.eqb_neq in Eabfs.
      repeat split; assumption || reflexivity.
Qed.

(** X8.  On an ephemeral-serverless (Fargate) cluster the run configuration
    is always built: an [ECSRun] on the worker image, labelled with the bakery
    id, whose task definition gives the driver 2048 cpu units and 16384
    memory units under the cluster's execution role and is tagged with the
    recipe name.  Neither the secrets nor the resource hint play a part. *)
Theorem configure_run_config_fargate
    (cluster : Cluster.t) (recipe_bakery : RecipeBakery.t)
    (recipe_name : string) (secrets secrets' : gmap string string)
    (hint : option Resources.t) :
  Cluster.type cluster = FARGATE_CLUSTER →
  (∃ task_definition,
     configure_run_config cluster recipe_bakery recipe_name secrets
     = Return (ECSRun (Cluster.worker_image cluster)
                 [ RecipeBakery.id recipe_bakery ] task_definition
                 [ ("tags",
                     PList [ PDict [ ("key", PStr "Project");
                                     ("value", PStr "pangeo-forge") ];
                             PDict [ ("key", PStr "Recipe");
                                     ("value", PStr recipe_name) ] ]) ])
     ∧ assoc "cpu" task_definition = Some (PInt 2048)
     ∧ assoc "memory" task_definition = Some (PInt 16384)
     ∧ assoc "executionRoleArn" task_definition
       = Some (PStr (FargateClusterOptions.execution_role_arn
                       (Cluster.cluster_options cluster))))
  ∧ configure_run_config cluster recipe_bakery recipe_name secrets
    = configure_run_config cluster
        (RecipeBakery.mk (RecipeBakery.id recipe_bakery)
           (RecipeBakery.target recipe_bakery) hint)
        recipe_name secrets'.
Proof.
  intros Ht. unfold configure_run_config. rewrite (eqb_tag _ _ Ht). cbn.
  split; [|reflexivity]. eexists. split; [reflexivity|]. now cbn.
Qed.

(** X9.  The executor builder and the run-configuration builder accept the
    same inputs: for any cluster, hint, recipe name and secrets, both return
    or both raise, and then they raise the same exception. *)
Theorem builders_fail_alike
    (cluster : Cluster.t) (recipe_bakery : RecipeBakery.t)
    (recipe_name : string) (secrets : gmap string string) :
  match configure_dask_executor cluster recipe_bakery recipe_name secrets,
        configure_run_config cluster recipe_bakery recipe_name secrets with
  | Return _, Return _ => True
  | Raise e, Raise e' => e = e'
  | _, _ => False
  end.
Proof.
  unfold configure_dask_executor, configure_run_config, getitem.
  destruct (String.eqb _ FARGATE_CLUSTER); [exact I|].
  destruct (String.eqb _ AKS_CLUSTER); [|reflexivity].
  now destruct (secrets !! _).
Qed.

(** X10.  Any executor that is built scales adaptively between 5 workers and
    the cluster's [max_workers], whichever the cluster type and whatever the
    resource hint. *)
Theorem configure_dask_executor_envelope
    (cluster : Cluster.t) (recipe_bakery : RecipeBakery.t)
    (recipe_name : string) (secrets : gmap string string)
    (executor : DaskExecutor) :
  configure_dask_executor cluster recipe_bakery recipe_name secrets
  = Return executor →
  assoc "minimum" (adapt_kwargs executor) = Some (PInt 5)
  ∧ assoc "maximum" (adapt_kwargs executor)
    = Some (PInt (Cluster.max_workers cluster))
  ∧ length (adapt_kwargs executor) = 2%nat.
Proof.
  unfold configure_dask_executor, getitem.
  destruct (String.eqb _ FARGATE_CLUSTER).
  - intros E. injection E as <-. now cbn.
  - destruct (String.eqb _ AKS_CLUSTER); [|discriminate].
    destruct (secrets !! _); [|discriminate].
    cbn. intros E. injection E as <-. now cbn.
Qed.

(** X11.  On a container-orchestrator cluster whose flow-storage secret is
    missing from [secrets], neither builder produces anything: both raise
    [KeyError] on the secret's name. *)
Theorem builders_aks_missing_secret
    (cluster : Cluster.t) (recipe_bakery : RecipeBakery.t)
    (recipe_name : string) (secrets : gmap string string) :
  Cluster.type cluster = AKS_CLUSTER →
  AKS_CLUSTER ≠ FARGATE_CLUSTER →
  secrets !! StorageOptions.secret (Cluster.flow_storage_options cluster) = None →
  configure_dask_executor cluster recipe_bakery recipe_name secrets
  = Raise (KeyError (StorageOptions.secret (Cluster.flow_storage_options cluster)))
  ∧ configure_run_config cluster recipe_bakery recipe_name secrets
    = Raise (KeyError (StorageOptions.secret
                         (Cluster.flow_storage_options cluster))).
Proof.
  intros Ht Hne Hs. unfold configure_dask_executor, configure_run_config, getitem.
  now rewrite Ht, (eqb_other _ _ Hne), String.eqb_refl, Hs.
Qed.

(** X12.  [check_versions] returns [True] exactly when the manifest, the
    cluster and the runtime agree on the notebook version and on the
    framework version, and the cluster and the runtime agree on the engine
    version; it never returns [False]. *)
Theorem check_versions_passes_iff
    (meta : Meta.t) (cluster : Cluster.t) (versions : Versions.t) :
  (check_versions meta cluster versions = Return true ↔
   Meta.pangeo_notebook_version meta = Versions.pangeo_notebook_version versions
   ∧ Meta.pangeo_notebook_version meta = Cluster.pangeo_notebook_version cluster
   ∧ Meta.pangeo_forge_version meta = Versions.pangeo_forge_version versions
   ∧ Meta.pangeo_forge_version meta = Cluster.pangeo_forge_version cluster
   ∧ Versions.prefect_version versions = Cluster.prefect_version cluster)
  ∧ check_versions meta cluster versions ≠ Return false.
Proof.
  unfold check_versions, str_ne.
  destruct (String.eqb_spec (Meta.pangeo_notebook_version meta)
              (Versions.pangeo_notebook_version versions)) as [E1|N1]; cbn;
    [|split; [split; [discriminate|tauto]|discriminate]].
  destruct (String.eqb_spec (Meta.pangeo_notebook_version meta)
              (Cluster.pangeo_notebook_version cluster)) as [E2|N2]; cbn;
    [|split; [split; [discriminate|tauto]|discriminate]].
  destruct (String.eqb_spec (Meta.pangeo_forge_version meta)
              (Versions.pangeo_forge_version versions)) as [E3|N3]; cbn;
    [|split; [split; [discriminate|tauto]|discriminate]].
  destruct (String.eqb_spec (Meta.pangeo_forge_version meta)
              (Cluster.pangeo_forge_version cluster)) as [E4|N4]; cbn;
    [|split; [split; [discriminate|tauto]|discriminate]].
  destruct (String.eqb_spec (Versions.prefect_version versions)
              (Cluster.prefect_version cluster)) as [E5|N5]; cbn;
    [|split; [split; [discriminate|tauto]|discriminate]].
  split; [tauto|discriminate].
Qed.

End MoreBuilderProperties.

(** * Module references *)

Section References.

Lemma str_split_nonempty (sep : ascii) (s : string) : str_split sep s ≠ [].
Proof.
  destruct s as [|c s]; cbn; [discriminate|].
  destruct (Ascii.eqb c sep); [discriminate|].
  now destruct (str_split sep s).
Qed.

Lemma str_split_no_separator (sep : ascii) (s : string) :
  contains sep s = false → str_split sep s = [ s ].
Proof.
  induction s as [|c s IH]; cbn; [reflexivity|].
  destruct (Ascii.eqb c sep); cbn; [discriminate|].
  intros Hs. now rewrite (IH Hs).
Qed.

Lemma str_split_at_separator (sep : ascii) (before after : string) :
  contains sep before = false →
  str_split sep (before +:+ String sep after) = before :: str_split sep after.
Proof.
  induction before as [|c before IH]; intros Hb.
  - change (str_split sep (String sep after) = "" :: str_split sep after).
    cbn. now rewrite Ascii.eqb_refl.
  - cbn in Hb. apply orb_false_iff in Hb as [Hc Hb].
    change (str_split sep (String c (before +:+ String sep after))
            = String c before :: str_split sep after).
    cbn. now rewrite Hc, (IH Hb).
Qed.

(** X13.  Splitting a reference on a separator loses nothing: joining the
    components with the separator gives the reference back, and no component
    contains the separator. *)
Theorem str_join_split (sep : ascii) (s : string) :
  str_join (String sep "") (str_split sep s) = s
  ∧ Forall (λ component, contains sep component = false) (str_split sep s).
Proof.
  induction s as [|c s [IHj IHf]]; cbn.
  - split; [reflexivity|]. now constructor.
  - destruct (Ascii.eqb c sep) eqn:Ec.
    + apply Ascii.eqb_eq in Ec as ->. split.
      * pose proof (str_split_nonempty sep s) as Hne.
        destruct (str_split sep s) as [|component rest]; [contradiction|].
        change (str_join (String sep "") ("" :: component :: rest))
          with (String sep (str_join (String sep "") (component :: rest))).
        now rewrite IHj.
      * now constructor.
    + pose proof (str_split_nonempty sep s) as Hne.
      destruct (str_split sep s) as [|component rest]; [contradiction|].
      split.
      * rewrite <- IHj. now destruct rest.
      * inversion IHf as [|? ? Hc Hrest]; subst. constructor; [|exact Hrest].
        cbn. now rewrite Ec.
Qed.

(** X14.  A reference is rejected (the [IndexError] of
    [module_components[1]]) exactly when it contains no colon. *)
Theorem module_and_name_rejects (attribute_path : string) :
  module_and_name attribute_path = None
  ↔ contains ":" attribute_path = false.
Proof.
  unfold module_and_name. induction attribute_path as [|c s IH]; cbn.
  - tauto.
  - destruct (Ascii.eqb c ":") eqn:Ec; cbn.
    + pose proof (str_split_nonempty ":" s) as Hne.
      destruct (str_split ":" s) as [|component rest]; [contradiction|].
      split; discriminate.
    + pose proof (str_split_nonempty ":" s) as Hne.
      destruct (str_split ":" s) as [|component [|component' rest]];
        [contradiction| |]; cbn in *.
      * split; [intros _; now apply IH|reflexivity].
      * split; [discriminate|]. intros Hs. now apply IH in Hs.
Qed.

(** X15.  A reference [module:name] stands for the file [module.py] and the
    attribute [name], and whatever follows a second colon is ignored. *)
Theorem module_and_name_accepts (module name rest : string) :
  contains ":" module = false →
  contains ":" name = false →
  module_and_name (module +:+ ":" +:+ name) = Some (module +:+ ".py", name)
  ∧ module_and_name (module +:+ ":" +:+ name +:+ ":" +:+ rest)
    = Some (module +:+ ".py", name).
Proof.
  intros Hm Hn. unfold module_and_name. split.
  - change (module +:+ ":" +:+ name) with (module +:+ String ":" name).
    rewrite (str_split_at_separator _ _ _ Hm).
    now rewrite (str_split_no_separator _ _ Hn).
  - change (module +:+ ":" +:+ name +:+ ":" +:+ rest)
      with (module +:+ String ":" (name +:+ String ":" rest)).
    rewrite (str_split_at_separator _ _ _ Hm).
    now rewrite (str_split_at_separator _ _ _ Hn).
Qed.

End References.

(** * Further properties of the wrapper *)

Section Wrapper.
Context {S : Type}.

Lemma configured_twice (rt : runtime S) : configured (configured rt) = configured rt.
Proof.
  unfold configured, with_logging, setLevel, basicConfig. cbn.
  destruct (root_handlers (logging rt)) eqn:En; cbn; rewrite ?En; cbn;
    now rewrite insert_insert_eq.
Qed.

Lemma set_log_level_runs_configured (func : task_fn S) (args : list pyval)
    (kwargs : list (string * pyval)) (rt : runtime S) :
  set_log_level func args kwargs rt = func args kwargs (configured rt).
Proof.
  unfold set_log_level, configured, mbind, ST_bind, modify, mret, ST_ret. cbn.
  now destruct (func args kwargs _) as [[v|e] rt'].
Qed.

(** X16.  Wrapping is idempotent: a task wrapped twice runs exactly as a
    task wrapped once. *)
Theorem set_log_level_idempotent (func : task_fn S) (args : list pyval)
    (kwargs : list (string * pyval)) (rt : runtime S) :
  set_log_level (set_log_level func) args kwargs rt
  = set_log_level func args kwargs rt.
Proof.
  rewrite (set_log_level_runs_configured (set_log_level func)).
  rewrite !set_log_level_runs_configured.
  now rewrite configured_twice.
Qed.

(** X17.  The task that [set_log_level] wraps is run once, on its own
    arguments, in a state that differs from the caller's in nothing but the
    [pangeo_forge_recipes] logger and, when the root logger had no handler,
    the root logger's handlers: every other logger keeps its level, handlers
    are added and never removed, and the rest of the process is as it was.
    The outcome of that run is the outcome of the wrapped call. *)
Theorem set_log_level_footprint (func : task_fn S) (args : list pyval)
    (kwargs : list (string * pyval)) (rt : runtime S) (other : string) :
  other ≠ "pangeo_forge_recipes" →
  ∃ rt' : runtime S,
    set_log_level func args kwargs rt = func args kwargs rt'
    ∧ logger_levels (logging rt') !! other = logger_levels (logging rt) !! other
    ∧ root_handlers (logging rt') = Nat.max 1 (root_handlers (logging rt))
    ∧ process rt' = process rt.
Proof.
  intros Hne. exists (configured rt).
  split; [apply set_log_level_runs_configured|].
  unfold configured, with_logging, setLevel, basicConfig. cbn.
  destruct (root_handlers (logging rt)) as [|n] eqn:En; cbn.
  - split; [now apply lookup_insert_ne|]. now split.
  - split; [now apply lookup_insert_ne|]. rewrite En. now split.
Qed.

(** X18.  The wrapper does not restore the level afterwards: when the task
    itself leaves the logging configuration alone, the
    [pangeo_forge_recipes] logger is still at [DEBUG] once the wrapped call
    is over, whatever its level was before. *)
Theorem set_log_level_not_restored (func : task_fn S) (args : list pyval)
    (kwargs : list (string * pyval)) (rt : runtime S) :
  (∀ rt0, logging (func args kwargs rt0).2 = logging rt0) →
  logger_levels (logging (set_log_level func args kwargs rt).2)
    !! "pangeo_forge_recipes" = Some DEBUG.
Proof.
  intros Hkeep. rewrite set_log_level_runs_configured, Hkeep.
  unfold configured, with_logging, setLevel. cbn. apply lookup_insert_eq.
Qed.

End Wrapper.

(** * Further properties of the assembly *)

Section MoreAssemblyProperties.
Context {tags : BakeryTags} {adlfs : Adlfs} {S : Type}.
Variable to_prefect : Recipe.t → Flow.t S.
Variable copy_pruned : Recipe.t → Recipe.t.


Lemma run_config_follows_executor
    (cluster : Cluster.t) (recipe_bakery : RecipeBakery.t)
    (recipe_name : string) (secrets : gmap string string)
    (executor : DaskExecutor) :
  configure_dask_executor cluster recipe_bakery recipe_name secrets
  = Return executor →
  ∃ run_config,
    configure_run_config cluster recipe_bakery recipe_name secrets
    = Return run_config.
Proof.
  unfold configure_dask_executor, configure_run_config, getitem.
  destruct (String.eqb _ FARGATE_CLUSTER); [eauto|].
  destruct (String.eqb _ AKS_CLUSTER); [|discriminate].
  destruct (secrets !! _); [eauto|discriminate].
Qed.

(** X19.  [recipe_to_flow] touches one thing in the world: the three slots
    of the recipe it was given.  Every other recipe object, and that
    recipe's class and definition, are as before, and nothing is asked of
    the engine: the calls it adds are resolver invocations. *)
Theorem recipe_to_flow_footprint
    (bakery : Bakery.t) (meta : Meta.t) (recipe_id : string) (recipe : nat)
    (targets : option Targets.t) (secrets : gmap string string) (prune : bool)
    (w : world S) :
  let w' := (recipe_to_flow to_prefect copy_pruned bakery meta recipe_id recipe
               targets secrets prune w).2 in
  (∀ other : nat, other ≠ recipe → objects w' other = objects w other)
  ∧ Recipe.class (objects w' recipe) = Recipe.class (objects w recipe)
  ∧ Recipe.definition (objects w' recipe) = Recipe.definition (objects w recipe)
  ∧ ∃ new, calls w' = (calls w ++ new)%list
           ∧ Forall (λ e, resolver_call e = true) new.
Proof.
  unfold recipe_to_flow, update_object, log, modify, get, lift, mbind, ST_bind,
    mret, ST_ret.
  destruct targets as [t|]; cbn.
  2:{ repeat split. exists []. split; [now rewrite app_nil_r|constructor]. }
  set (objs := <[recipe := set_metadata_cache _ _]> _).
  assert (Hother : ∀ other, other ≠ recipe → objs other = objects w other).
  { intros other Hne. subst objs. now rewrite !fn_lookup_insert_ne by congruence. }
  assert (Hclass : Recipe.class (objs recipe) = Recipe.class (objects w recipe)).
  { subst objs. now rewrite !fn_lookup_insert. }
  assert (Hdef : Recipe.definition (objs recipe)
                 = Recipe.definition (objects w recipe)).
  { subst objs. now rewrite !fn_lookup_insert. }
  clearbody objs.
  destruct (configure_dask_executor _ _ _ _) as [executor|e1]; cbn.
  2:{ repeat split; try assumption. eexists. split; [reflexivity|].
      now repeat constructor. }
  destruct (configure_flow_storage _ _) as [storage|e2]; cbn.
  2:{ repeat split; try assumption. eexists. rewrite <- app_assoc.
      split; [reflexivity|]. now repeat constructor. }
  destruct (configure_run_config _ _ _ _) as [run_config|e3]; cbn.
  all: repeat split; try assumption; eexists; rewrite <- !app_assoc;
    (split; [reflexivity|]); now repeat constructor.
Qed.

(** X20.  Earlier bindings of the recipe do not show in the result: two
    worlds whose recipe objects differ at most in the three slots give the
    same flow, or the same exception. *)
Theorem recipe_to_flow_overwrites_slots
    (bakery : Bakery.t) (meta : Meta.t) (recipe_id : string) (recipe : nat)
    (targets : option Targets.t) (secrets : gmap string string) (prune : bool)
    (w1 w2 : world S) :
  Recipe.class (objects w1 recipe) = Recipe.class (objects w2 recipe) →
  Recipe.definition (objects w1 recipe) = Recipe.definition (objects w2 recipe) →
  (recipe_to_flow to_prefect copy_pruned bakery meta recipe_id recipe targets
     secrets prune w1).1
  = (recipe_to_flow to_prefect copy_pruned bakery meta recipe_id recipe targets
       secrets prune w2).1.
Proof.
  intros Hclass Hdef.
  unfold recipe_to_flow, update_object, log, modify, get, lift, mbind, ST_bind,
    mret, ST_ret.
  destruct targets as [t|]; cbn; [|reflexivity].
  rewrite !fn_lookup_insert.
  unfold set_metadata_cache, set_input_cache, set_target. cbn.
  rewrite Hclass, Hdef.
  destruct (configure_dask_executor _ _ _ _) as [executor|e1]; cbn;
    [|reflexivity].
  destruct (configure_flow_storage _ _) as [storage|e2]; cbn; [|reflexivity].
  now destruct (configure_run_config _ _ _ _) as [run_config|e3].
Qed.


(** X22.  With targets in hand, [recipe_to_flow] never fails on the run
    configuration: an exception it raises is the executor builder's or the
    flow-storage resolver's. *)
Theorem recipe_to_flow_failure_origin
    (bakery : Bakery.t) (meta : Meta.t) (recipe_id : string) (recipe : nat)
    (targets : Targets.t) (secrets : gmap string string) (prune : bool)
    (w w' : world S) (e : exn) :
  recipe_to_flow to_prefect copy_pruned bakery meta recipe_id recipe
    (Some targets) secrets prune w = (Raise e, w') →
  configure_dask_executor (Bakery.cluster bakery) (Meta.bakery meta) recipe_id
    secrets = Raise e
  ∨ configure_flow_storage (Bakery.cluster bakery) secrets = Raise e.
Proof.
  unfold recipe_to_flow, update_object, log, modify, get, lift, mbind, ST_bind,
    mret, ST_ret.
  cbn.
  destruct (configure_dask_executor _ _ _ _) as [executor|e1] eqn:Ee.
  2:{ intros E. injection E as <- _. now left. }
  destruct (run_config_follows_executor _ _ _ _ _ Ee) as [run_config ->].
  destruct (configure_flow_storage _ _) as [storage|e2]; [discriminate|].
  intros E. injection E as <- _. now right.
Qed.

End MoreAssemblyProperties.

(** * Further properties of the orchestrator *)

Create HintDb appends.

Section Appends.
Context {S : Type} (Q : list (event S) → Prop) `{!Additive Q}.

Lemma appends_unchanged {A : Type} (m : ST (world S) A) :
  (∀ w, calls (m w).2 = calls w) → appends Q m.
Proof.
  intros Hm w. exists []. rewrite app_nil_r. split; [apply Hm|apply additive_nil].
Qed.

Lemma appends_ret {A : Type} (a : A) : appends Q (mret a).
Proof. now apply appends_unchanged. Qed.

Lemma appends_lift {A : Type} (r : result A) : appends Q (lift r).
Proof. now apply appends_unchanged. Qed.

Lemma appends_get : appends Q get.
Proof. now apply appends_unchanged. Qed.

Lemma appends_update_object (address : nat) (f : Recipe.t → Recipe.t) :
  appends Q (update_object address f).
Proof. now apply appends_unchanged. Qed.

Lemma appends_log (e : event S) : Q [ e ] → appends Q (log e).
Proof. intros He w. now exists [ e ]. Qed.

Lemma appends_bind_returns {A B : Type} (R : A → Prop) (m : ST (world S) A)
    (f : A → ST (world S) B) :
  appends Q m → returns R m → (∀ a, R a → appends Q (f a)) →
  appends Q (m ≫= f).
Proof.
  intros Hm HR Hf w. destruct (Hm w) as (new1 & E1 & Q1).
  unfold mbind, ST_bind. specialize (HR w).
  destruct (m w) as [[a|e] w1]; cbn in *.
  - destruct (Hf a (HR w1 a eq_refl) w1) as (new2 & E2 & Q2).
    exists (new1 ++ new2)%list. rewrite E2, E1, app_assoc.
    split; [reflexivity|now apply additive_app].
  - now exists new1.
Qed.

Lemma appends_bind {A B : Type} (m : ST (world S) A) (f : A → ST (world S) B) :
  appends Q m → (∀ a, appends Q (f a)) → appends Q (m ≫= f).
Proof.
  intros Hm Hf. apply (appends_bind_returns (λ _, True)); [exact Hm|easy|].
  intros a _. apply Hf.
Qed.

Lemma appends_for_each {A : Type} (body : A → ST (world S) unit) (xs : list A) :
  (∀ x, appends Q (body x)) → appends Q (for_each body xs).
Proof.
  intros Hbody. induction xs as [|x xs IH]; cbn.
  - apply appends_ret.
  - apply appends_bind; [apply Hbody|]. intros _. exact IH.
Qed.

End Appends.

#[local] Hint Resolve appends_ret appends_lift appends_get appends_update_object
  appends_bind appends_for_each : appends.

Section Counting.
Context {S : Type}.

#[global] Instance Forall_additive (P : event S → Prop) : Additive (Forall P).
Proof. split; [constructor|]. intros new1 new2 H1 H2. now apply Forall_app. Qed.

Lemma count_app (kind : event S → bool) (events1 events2 : list (event S)) :
  count kind (events1 ++ events2) = (count kind events1 + count kind events2)%nat.
Proof. unfold count. now rewrite filter_app, length_app. Qed.

#[global] Instance balanced_additive : Additive (balanced (S := S)).
Proof.
  split; [split; cbn; lia|].
  intros new1 new2 [H1 H1'] [H2 H2']. unfold balanced. rewrite !count_app. lia.
Qed.

Lemma count_none (P : event S → Prop) (kind : event S → bool)
    (events : list (event S)) :
  (∀ e, P e → kind e = false) → Forall P events → count kind events = 0%nat.
Proof.
  intros Hkind HP. unfold count. induction HP as [|e events He _ IH].
  - reflexivity.
  - rewrite filter_cons. destruct (decide (kind e = true)) as [Hk|_];
      [|exact IH].
    rewrite (Hkind e He) in Hk. discriminate Hk.
Qed.

End Counting.

Section OrchestratorInvariants.
Context {tags : BakeryTags} {adlfs : Adlfs} {S : Type}.
Variable to_prefect : Recipe.t → Flow.t S.
Variable copy_pruned : Recipe.t → Recipe.t.
Variable get_module_attribute :
  string → string → (nat → Recipe.t) → result attribute * (nat → Recipe.t).
Variable flow_register : Flow.t S → string → result string.

Lemma appends_load (Q : list (event S) → Prop) `{!Additive Q}
    (meta_path attribute_path : string) :
  appends Q (load (S := S) get_module_attribute meta_path attribute_path).
Proof.
  apply (appends_unchanged Q). intros w. unfold load.
  now destruct (get_module_attribute _ _ _).
Qed.

Lemma recipe_to_flow_returns_assembled
    (bakery : Bakery.t) (meta : Meta.t) (recipe_id : string) (recipe : nat)
    (targets : option Targets.t) (secrets : gmap string string) (prune : bool) :
  returns assembled
    (recipe_to_flow to_prefect copy_pruned bakery meta recipe_id recipe targets
       secrets prune).
Proof.
  intros w w' flow.
  unfold recipe_to_flow, update_object, log, modify, get, lift, mbind, ST_bind,
    mret, ST_ret.
  destruct targets as [t|]; [|discriminate]. cbn.
  destruct (configure_dask_executor _ _ _ _) as [executor|e1]; [|discriminate].
  destruct (configure_flow_storage _ _) as [storage|e2]; [|discriminate].
  destruct (configure_run_config _ _ _ _) as [run_config|e3]; [|discriminate].
  intros E. injection E as <- _. unfold assembled. cbn.
  repeat (split; [eauto|]). now apply Forall_map, Forall_true.
Qed.

Section PermittedCalls.
Variables (environ secrets : gmap string string) (Q : list (event S) → Prop).
Context `{!Additive Q}.
Hypothesis HQ : admits environ secrets Q.

Lemma recipe_to_flow_appends
    (bakery : Bakery.t) (meta : Meta.t) (recipe_id : string) (recipe : nat)
    (targets : option Targets.t) (prune : bool) :
  appends Q
    (recipe_to_flow to_prefect copy_pruned bakery meta recipe_id recipe targets
       secrets prune).
Proof.
  destruct HQ as (_ & _ & Hresolver & _). unfold recipe_to_flow.
  repeat first
    [ apply (appends_ret Q)
    | apply (appends_bind Q);
        [first [solve [auto with appends]
               |apply (appends_log Q), Hresolver; reflexivity]
        |intros ?] ].
Qed.

Lemma register_recipe_appends
    (bakery : Bakery.t) (meta : Meta.t) (prune : bool) (project_name : string)
    (key : string) (value : attribute) :
  environ !! "PREFECT_PROJECT_NAME" = Some project_name →
  appends Q
    (register_recipe to_prefect copy_pruned flow_register environ bakery meta
       secrets prune project_name (environ !! "COMMENT_ID") key value).
Proof.
  intros Hproject. destruct HQ as (_ & Htargets & _ & Htail).
  unfold register_recipe. destruct value as [recipe|items];
    [|apply (appends_lift Q)].
  do 2 (apply (appends_bind Q); [auto with appends|intros ?]).
  apply (appends_bind Q); [apply (appends_log Q), Htargets|intros _].
  apply (appends_bind Q); [auto with appends|intros targets].
  apply (appends_bind_returns Q assembled);
    [apply recipe_to_flow_appends|apply recipe_to_flow_returns_assembled|].
  intros flow Hflow w.
  destruct (Htail flow project_name Hflow Hproject) as [Hreg Hrun].
  unfold log, modify, lift, mbind, ST_bind, mret, ST_ret. cbn.
  destruct (flow_register flow project_name) as [flow_id|e]; cbn;
    [|now eexists].
  destruct (truthy (environ !! "COMMENT_ID")) eqn:Htruthy; cbn; [|now eexists].
  destruct (environ !! "COMMENT_ID") as [run_name|] eqn:Hcomment;
    [|discriminate Htruthy].
  destruct (Hrun flow_id run_name eq_refl eq_refl) as [Hrun' Hhook]. cbn.
  unfold getitem.
  destruct (secrets !! "ACTIONS_BOT_TOKEN") as [pat_token|] eqn:Htoken; cbn.
  - eexists. rewrite <- !app_assoc. split; [reflexivity|]. now apply Hhook.
  - eexists. rewrite <- !app_assoc. split; [reflexivity|]. exact Hrun'.
Qed.

Lemma register_flow_appends
    (meta_path : string) (meta : Meta.t) (bakeries_dict : gmap string Bakery.t)
    (versions : Versions.t) (prune : bool) :
  appends Q
    (register_flow to_prefect copy_pruned get_module_attribute flow_register
       environ meta_path meta bakeries_dict secrets versions prune).
Proof.
  unfold register_flow.
  do 2 (apply (appends_bind Q); [auto with appends|intros ?]).
  apply (appends_bind_returns Q
           (λ name, environ !! "PREFECT_PROJECT_NAME" = Some name));
    [auto with appends| |].
  { intros w w' name. unfold lift, getitem.
    destruct (environ !! "PREFECT_PROJECT_NAME"); [|discriminate].
    intros E. now injection E as -> _. }
  intros project_name Hproject.
  apply (appends_bind Q); [apply (appends_log Q); exact (proj1 HQ)|intros _].
  apply (appends_for_each Q). intros recipe_meta.
  destruct (truthy (RecipeMeta.dict_object recipe_meta)).
  - apply (appends_bind Q); [apply (appends_load Q)|intros recipes_dict].
    apply (appends_bind Q); [auto with appends|intros items].
    apply (appends_for_each Q). intros [key value].
    now apply register_recipe_appends.
  - apply (appends_bind Q); [apply (appends_load Q)|intros recipe].
    now apply register_recipe_appends.
Qed.

End PermittedCalls.

End OrchestratorInvariants.

Section Loops.
Context {σ : Type}.

Lemma bind_raise_mono {A B : Type} (m : ST σ A) (f g : A → ST σ B)
    (s s' : σ) (e : exn) :
  (∀ a s1, f a s1 = (Raise e, s') → g a s1 = (Raise e, s')) →
  (m ≫= f) s = (Raise e, s') → (m ≫= g) s = (Raise e, s').
Proof.
  intros Hfg. unfold mbind, ST_bind.
  destruct (m s) as [[a|e0] s1]; [apply Hfg|easy].
Qed.

Lemma for_each_app_raise {A : Type} (body : A → ST σ unit) (xs ys : list A)
    (s s' : σ) (e : exn) :
  for_each body xs s = (Raise e, s') →
  for_each body (xs ++ ys) s = (Raise e, s').
Proof.
  revert s. induction xs as [|x xs IH]; intros s; cbn.
  - discriminate.
  - apply bind_raise_mono. intros _ s1. apply IH.
Qed.

End Loops.

Section OrchestratorProperties2.
Context {tags : BakeryTags} {adlfs : Adlfs} {S : Type}.
Variable to_prefect : Recipe.t → Flow.t S.
Variable copy_pruned : Recipe.t → Recipe.t.
Variable get_module_attribute :
  string → string → (nat → Recipe.t) → result attribute * (nat → Recipe.t).
Variable flow_register : Flow.t S → string → result string.

Lemma permitted_admitted (environ secrets : gmap string string) :
  admits (S := S) environ secrets (Forall (permitted environ secrets)).
Proof.
  unfold admits. split. 2: split. 3: split.
  - now apply List.Forall_cons.
  - intros key. now apply List.Forall_cons.
  - intros e He. apply List.Forall_cons; [|constructor]. now destruct e.
  - intros flow project_name Hflow Hproject. split.
    + apply List.Forall_cons; [|constructor]. now split.
    + intros flow_id run_name Htruthy Hrun. split.
      * repeat (apply List.Forall_cons; [now split|]). constructor.
      * intros pat_token Htoken.
        repeat (apply List.Forall_cons; [now split|]). constructor.
Qed.

Lemma balanced_admitted (environ secrets : gmap string string) :
  admits (S := S) environ secrets balanced.
Proof.
  unfold admits, balanced, count. split. 2: split. 3: split.
  - vm_compute. lia.
  - intros key. vm_compute. lia.
  - intros e He. destruct e; try discriminate He; vm_compute; lia.
  - intros flow project_name _ _. split; [vm_compute; lia|].
    intros flow_id run_name _ _. split; [vm_compute; lia|].
    intros pat_token _. vm_compute. lia.
Qed.

Lemma registered_added (w w' : world S) (new : list (event S))
    (P : Flow.t S * string → Prop) :
  calls w' = (calls w ++ new)%list →
  Forall (λ e, match e with
               | Register flow project_name => P (flow, project_name)
               | _ => True
               end) new →
  ∃ added, registered w' = (registered w ++ added)%list ∧ Forall P added.
Proof.
  intros Hcalls Hnew. unfold registered. rewrite Hcalls, omap_app.
  clear Hcalls. eexists. split; [reflexivity|].
  induction Hnew as [|e new He _ IH]; cbn; [constructor|].
  destruct e; try exact IH. now apply List.Forall_cons.
Qed.

(** X23.  Whatever the manifest, the loader and the engine do,
    [register_flow] only adds to the record of calls (nothing registered
    before is taken back), and what it adds is permitted: every job sent for
    registration is fully assembled and goes to the project named by
    [PREFECT_PROJECT_NAME]; runs are named by a non-empty [COMMENT_ID]; hooks
    carry the secret [ACTIONS_BOT_TOKEN]. *)
Theorem register_flow_requests_permitted
    (environ : gmap string string) (meta_path : string) (meta : Meta.t)
    (bakeries_dict : gmap string Bakery.t) (secrets : gmap string string)
    (versions : Versions.t) (prune : bool) (w : world S) :
  let w' := (register_flow to_prefect copy_pruned get_module_attribute
               flow_register environ meta_path meta bakeries_dict secrets
               versions prune w).2 in
  (∃ new, calls w' = (calls w ++ new)%list
          ∧ Forall (permitted environ secrets) new)
  ∧ ∃ added, registered w' = (registered w ++ added)%list
             ∧ Forall (λ job, assembled job.1
                              ∧ environ !! "PREFECT_PROJECT_NAME" = Some job.2)
                 added.
Proof.
  cbn.
  destruct (register_flow_appends to_prefect copy_pruned get_module_attribute
              flow_register environ secrets _
              (permitted_admitted environ secrets) meta_path meta bakeries_dict
              versions prune w) as (new & Hcalls & Hnew).
  split; [now exists new|].
  apply (registered_added _ _ new); [exact Hcalls|].
  eapply Forall_impl; [exact Hnew|]. intros e He. now destruct e.
Qed.

(** X24.  Without a correlation id ([COMMENT_ID] unset or empty) the batch
    never triggers a run and never installs a hook. *)
Theorem register_flow_without_correlation_id
    (environ : gmap string string) (meta_path : string) (meta : Meta.t)
    (bakeries_dict : gmap string Bakery.t) (secrets : gmap string string)
    (versions : Versions.t) (prune : bool) (w : world S) :
  truthy (environ !! "COMMENT_ID") = false →
  let w' := (register_flow to_prefect copy_pruned get_module_attribute
               flow_register environ meta_path meta bakeries_dict secrets
               versions prune w).2 in
  count run_request (calls w') = count run_request (calls w)
  ∧ count hook_request (calls w') = count hook_request (calls w).
Proof.
  intros Hfalse. cbn.
  destruct (register_flow_appends to_prefect copy_pruned get_module_attribute
              flow_register environ secrets _
              (permitted_admitted environ secrets) meta_path meta bakeries_dict
              versions prune w) as (new & -> & Hnew).
  rewrite !count_app.
  rewrite (count_none (permitted environ secrets) run_request new),
    (count_none (permitted environ secrets) hook_request new); try assumption.
  - lia.
  - intros e He. destruct e; try reflexivity. cbn in He. destruct He. congruence.
  - intros e He. destruct e; try reflexivity. cbn in He. destruct He. congruence.
Qed.

(** X25.  Without [ACTIONS_BOT_TOKEN] among the secrets no hook is ever
    installed. *)
Theorem register_flow_without_bot_token
    (environ : gmap string string) (meta_path : string) (meta : Meta.t)
    (bakeries_dict : gmap string Bakery.t) (secrets : gmap string string)
    (versions : Versions.t) (prune : bool) (w : world S) :
  secrets !! "ACTIONS_BOT_TOKEN" = None →
  count hook_request
    (calls (register_flow to_prefect copy_pruned get_module_attribute
              flow_register environ meta_path meta bakeries_dict secrets
              versions prune w).2)
  = count hook_request (calls w).
Proof.
  intros Hnone.
  destruct (register_flow_appends to_prefect copy_pruned get_module_attribute
              flow_register environ secrets _
              (permitted_admitted environ secrets) meta_path meta bakeries_dict
              versions prune w) as (new & -> & Hnew).
  rewrite count_app,
    (count_none (permitted environ secrets) hook_request new); try assumption.
  - lia.
  - intros e He. destruct e; try reflexivity. cbn in He. destruct He. congruence.
Qed.

(** X26.  Among the calls a batch adds, hooks never outnumber runs and runs
    never outnumber registrations: a run is only triggered for a job that
    was sent for registration, a hook only after a run. *)
Theorem register_flow_balanced
    (environ : gmap string string) (meta_path : string) (meta : Meta.t)
    (bakeries_dict : gmap string Bakery.t) (secrets : gmap string string)
    (versions : Versions.t) (prune : bool) (w : world S) :
  ∃ new,
    calls (register_flow to_prefect copy_pruned get_module_attribute
             flow_register environ meta_path meta bakeries_dict secrets
             versions prune w).2 = (calls w ++ new)%list
    ∧ (count hook_request new ≤ count run_request new)%nat
    ∧ (count run_request new ≤ count registration new)%nat.
Proof.
  exact (register_flow_appends to_prefect copy_pruned get_module_attribute
           flow_register environ secrets _ (balanced_admitted environ secrets)
           meta_path meta bakeries_dict versions prune w).
Qed.

(** X27.  The batch stops at the first error: if [register_flow] raises on
    a manifest, it raises the same exception in the same final world on any
    manifest that lists further recipes after those. *)
Theorem register_flow_stops_at_first_error
    (environ : gmap string string) (meta_path : string) (meta : Meta.t)
    (bakeries_dict : gmap string Bakery.t) (secrets : gmap string string)
    (versions : Versions.t) (prune : bool) (later : list RecipeMeta.t)
    (w w' : world S) (e : exn) :
  register_flow to_prefect copy_pruned get_module_attribute flow_register
    environ meta_path meta bakeries_dict secrets versions prune w
  = (Raise e, w') →
  register_flow to_prefect copy_pruned get_module_attribute flow_register
    environ meta_path
    (Meta.mk (Meta.pangeo_forge_version meta) (Meta.pangeo_notebook_version meta)
       (Meta.recipes meta ++ later) (Meta.bakery meta))
    bakeries_dict secrets versions prune w
  = (Raise e, w').
Proof.
  unfold register_flow, register_recipe, recipe_to_flow, check_versions.
  cbn [Meta.pangeo_forge_version Meta.pangeo_notebook_version Meta.recipes
       Meta.bakery].
  do 4 (apply bind_raise_mono; intros ? ?).
  apply for_each_app_raise.
Qed.

(** X28.  A manifest naming a bakery that the table lacks fails with
    [KeyError] on the bakery id, before anything else happens. *)
Theorem register_flow_unknown_bakery
    (environ : gmap string string) (meta_path : string) (meta : Meta.t)
    (bakeries_dict : gmap string Bakery.t) (secrets : gmap string string)
    (versions : Versions.t) (prune : bool) (w : world S) :
  bakeries_dict !! RecipeBakery.id (Meta.bakery meta) = None →
  register_flow to_prefect copy_pruned get_module_attribute flow_register
    environ meta_path meta bakeries_dict secrets versions prune w
  = (Raise (KeyError (RecipeBakery.id (Meta.bakery meta))), w).
Proof.
  intros Hb. unfold register_flow. apply bind_Raise.
  unfold lift, getitem. now rewrite Hb.
Qed.

(** X29.  With matching versions but no [PREFECT_PROJECT_NAME] in the
    environment, the batch fails with [KeyError] on that name before any
    recipe is loaded, even when the manifest lists no recipe at all. *)
Theorem register_flow_without_project_name
    (environ : gmap string string) (meta_path : string) (meta : Meta.t)
    (bakeries_dict : gmap string Bakery.t) (secrets : gmap string string)
    (versions : Versions.t) (prune : bool) (bakery : Bakery.t) (w : world S) :
  bakeries_dict !! RecipeBakery.id (Meta.bakery meta) = Some bakery →
  check_versions meta (Bakery.cluster bakery) versions = Return true →
  environ !! "PREFECT_PROJECT_NAME" = None →
  register_flow to_prefect copy_pruned get_module_attribute flow_register
    environ meta_path meta bakeries_dict secrets versions prune w
  = (Raise (KeyError "PREFECT_PROJECT_NAME"), w).
Proof.
  intros Hb Hv Hp. unfold register_flow.
  rewrite (getitem_Some _ _ _ Hb).
  rewrite (bind_Return _ _ w w bakery) by reflexivity. rewrite Hv.
  rewrite (bind_Return _ _ w w true) by reflexivity.
  apply bind_Raise. unfold lift, getitem. now rewrite Hp.
Qed.

(** X30.  A manifest whose first entry loads an object that is not an
    [XarrayZarrRecipe] fails with [UnsupportedRecipeType] before any
    resolver is called: the world has changed by what loading the module
    did and by the engine client, nothing more. *)
Theorem register_flow_unsupported_recipe
    (environ : gmap string string) (meta_path : string) (meta : Meta.t)
    (bakeries_dict : gmap string Bakery.t) (secrets : gmap string string)
    (versions : Versions.t) (prune : bool) (bakery : Bakery.t)
    (project_name class_name : string) (entry : RecipeMeta.t)
    (rest : list RecipeMeta.t) (address : nat) (objs : nat → Recipe.t)
    (w : world S) :
  bakeries_dict !! RecipeBakery.id (Meta.bakery meta) = Some bakery →
  check_versions meta (Bakery.cluster bakery) versions = Return true →
  environ !! "PREFECT_PROJECT_NAME" = Some project_name →
  Meta.recipes meta = entry :: rest →
  truthy (RecipeMeta.dict_object entry) = false →
  get_module_attribute meta_path (RecipeMeta.object entry) (objects w)
  = (Return (RecipeObject address), objs) →
  Recipe.class (objs address) = OtherRecipe class_name →
  register_flow to_prefect copy_pruned get_module_attribute flow_register
    environ meta_path meta bakeries_dict secrets versions prune w
  = (Raise UnsupportedRecipeType,
     {| objects := objs; calls := (calls w ++ [ Client ])%list |}).
Proof.
  intros Hb Hv Hp Hrecipes Hsingle Hload Hclass. unfold register_flow.
  rewrite (getitem_Some _ _ _ Hb), (getitem_Some _ _ _ Hp), Hrecipes.
  rewrite (bind_Return _ _ w w bakery) by reflexivity. rewrite Hv.
  rewrite (bind_Return _ _ w w true) by reflexivity.
  rewrite (bind_Return _ _ w w project_name) by reflexivity.
  erewrite bind_Return by reflexivity.
  cbn [for_each]. rewrite Hsingle. apply bind_Raise.
  erewrite bind_Return by (unfold load; cbn; now rewrite Hload).
  unfold register_recipe. erewrite bind_Return by reflexivity.
  apply bind_Raise. unfold lift, get_target_extension. cbn. now rewrite Hclass.
Qed.

End OrchestratorProperties2.

(** * The further properties on concrete inputs *)

(** X1 on a connection-string target whose secret the library accepts. *)
Lemma configure_targets_abfs_paths_witness :
  configure_targets (tags := sample_tags) (adlfs := sample_adlfs) sample_environ
    (sample_bakery (sample_cluster "azure.aks" "abfs")
       (sample_target "abfs" (Some sample_abfs_options)))
    (sample_recipe_bakery None) "foo" sample_abfs_secrets "zarr"
  = Return (Some (Targets.mk
      (FSSpecTarget (AzureBlobFileSystem sample_connection_string)
         "abfs://bucket/org/repo/foo.zarr")
      (CacheFSSpecTarget (AzureBlobFileSystem sample_connection_string)
         "abfs://bucket/org/repo/foo/cache")
      (MetadataTarget (AzureBlobFileSystem sample_connection_string)
         "abfs://bucket/org/repo/foo/cache/metadata"))).
Proof.
  apply (configure_targets_abfs_paths (tags := sample_tags)
           (adlfs := sample_adlfs) sample_environ
           (sample_bakery (sample_cluster "azure.aks" "abfs")
              (sample_target "abfs" (Some sample_abfs_options)))
           (sample_recipe_bakery None) "foo" sample_abfs_secrets "zarr"
           (sample_target "abfs" (Some sample_abfs_options))
           sample_abfs_options "org/repo" sample_connection_string);
    first [reflexivity|discriminate].
Defined.

(** X2 on the object-store target of the examples. *)
Lemma configure_targets_layout_witness :
  root_path (Targets.metadata sample_targets)
  = root_path (Targets.cache sample_targets) +:+ "/metadata".
Proof.
  refine (proj1 (proj2 (proj2 (proj2 (proj2 (proj2
    (configure_targets_layout (tags := sample_tags) (adlfs := sample_adlfs) sample_environ
       (sample_bakery (sample_cluster "aws.fargate" "s3")
          (sample_target "s3" (Some sample_s3_options)))
       (sample_recipe_bakery None) "foo" sample_secrets "zarr" sample_targets
       _))))))).
  reflexivity.
Defined.

(** X3 on an environment without [GITHUB_REPOSITORY] and a protocol no
    resolver knows. *)
Lemma configure_targets_lookups_first_witness :
  configure_targets (tags := sample_tags) (adlfs := sample_adlfs) ∅
    (sample_bakery (sample_cluster "aws.fargate" "s3") (sample_target "gcs" None))
    (sample_recipe_bakery None) "foo" sample_secrets "zarr"
  = Raise (KeyError "GITHUB_REPOSITORY").
Proof.
  refine (proj2 (configure_targets_lookups_first (tags := sample_tags) (adlfs := sample_adlfs) ∅
                   (sample_bakery (sample_cluster "aws.fargate" "s3")
                      (sample_target "gcs" None))
                   (sample_recipe_bakery None) "foo" sample_secrets "zarr") _ _).
  - eexists. reflexivity.
  - reflexivity.
Defined.

(** X4 on an object-store target whose secret is not among the secrets. *)
Lemma configure_targets_with_options_witness :
  (sample_secrets !! "BAKERY_KEY" = None ∧ KeyError "MISSING" = KeyError "BAKERY_KEY")
  ∨ (is_Some (sample_secrets !! "BAKERY_KEY")
     ∧ sample_secrets !! "MISSING" = None
     ∧ KeyError "MISSING" = KeyError "MISSING").
Proof.
  exact (configure_targets_with_options (tags := sample_tags) (adlfs := sample_adlfs) sample_environ
           (sample_bakery (sample_cluster "aws.fargate" "s3")
              (sample_target "s3" (Some (StorageOptions.mk "BAKERY_KEY" "MISSING"))))
           (sample_recipe_bakery None) "foo" sample_secrets "zarr"
           (sample_target "s3" (Some (StorageOptions.mk "BAKERY_KEY" "MISSING")))
           (StorageOptions.mk "BAKERY_KEY" "MISSING") "org/repo"
           eq_refl eq_refl eq_refl eq_refl).
Defined.

(** X5 on the object-store target of the examples. *)
Lemma configure_targets_paths_injective_witness : "foo" = "foo".
Proof.
  apply (configure_targets_paths_injective (tags := sample_tags) (adlfs := sample_adlfs) sample_environ
           (sample_bakery (sample_cluster "aws.fargate" "s3")
              (sample_target "s3" (Some sample_s3_options)))
           (sample_recipe_bakery None) "foo" "foo" sample_secrets "zarr"
           sample_targets sample_targets); [reflexivity|reflexivity|].
  left. reflexivity.
Defined.

(** X7 on a cluster whose flow storage uses a protocol no resolver knows. *)
Lemma configure_flow_storage_raises_witness :
  (UnsupportedFlowStorage = UnsupportedFlowStorage
   ∧ "gcs" ≠ "s3" ∧ "gcs" ≠ "abfs"
   ∧ ∀ secrets', configure_flow_storage (tags := sample_tags)
                   (sample_cluster "aws.fargate" "gcs") secrets'
                 = Raise UnsupportedFlowStorage)
  ∨ (∃ name, UnsupportedFlowStorage = KeyError name
             ∧ sample_secrets !! name = None
             ∧ (name = "BAKERY_KEY" ∨ name = "FLOW_SECRET")).
Proof.
  apply (configure_flow_storage_raises (tags := sample_tags)
           (sample_cluster "aws.fargate" "gcs") sample_secrets
           UnsupportedFlowStorage).
  reflexivity.
Defined.

(** X8 on a Fargate cluster: no secrets, another hint, the same result. *)
Lemma configure_run_config_fargate_witness :
  configure_run_config (tags := sample_tags) (sample_cluster "aws.fargate" "s3")
    (sample_recipe_bakery None) "foo" sample_secrets
  = configure_run_config (tags := sample_tags) (sample_cluster "aws.fargate" "s3")
      (sample_recipe_bakery (Some (Resources.mk 2048 500))) "foo" ∅.
Proof.
  refine (proj2 (configure_run_config_fargate (tags := sample_tags)
                   (sample_cluster "aws.fargate" "s3") (sample_recipe_bakery None)
                   "foo" sample_secrets ∅ (Some (Resources.mk 2048 500)) _)).
  reflexivity.
Defined.

(** X10 on a container-orchestrator cluster of at most ten workers. *)
Lemma configure_dask_executor_envelope_witness :
  ∃ executor,
    configure_dask_executor (tags := sample_tags)
      (sample_cluster "azure.aks" "abfs") (sample_recipe_bakery None) "foo"
      sample_secrets = Return executor
    ∧ assoc "minimum" (adapt_kwargs executor) = Some (PInt 5)
    ∧ assoc "maximum" (adapt_kwargs executor) = Some (PInt 10)
    ∧ length (adapt_kwargs executor) = 2%nat.
Proof.
  destruct (configure_dask_executor (tags := sample_tags)
              (sample_cluster "azure.aks" "abfs") (sample_recipe_bakery None)
              "foo" sample_secrets) as [executor|e] eqn:E.
  - exists executor. split; [reflexivity|].
    exact (configure_dask_executor_envelope (tags := sample_tags)
             (sample_cluster "azure.aks" "abfs") (sample_recipe_bakery None)
             "foo" sample_secrets executor E).
  - vm_compute in E. discriminate E.
Defined.

(** X11 on a container-orchestrator cluster and no secrets at all. *)
Lemma builders_aks_missing_secret_witness :
  configure_dask_executor (tags := sample_tags)
    (sample_cluster "azure.aks" "abfs") (sample_recipe_bakery None) "foo" ∅
  = Raise (KeyError "FLOW_SECRET")
  ∧ configure_run_config (tags := sample_tags)
      (sample_cluster "azure.aks" "abfs") (sample_recipe_bakery None) "foo" ∅
    = Raise (KeyError "FLOW_SECRET").
Proof.
  apply (builders_aks_missing_secret (tags := sample_tags)
           (sample_cluster "azure.aks" "abfs") (sample_recipe_bakery None) "foo" ∅);
    first [reflexivity|discriminate].
Defined.

(** X15 on the reference of the sample manifest. *)
Lemma module_and_name_accepts_witness :
  module_and_name "recipe:foo" = Some ("recipe.py", "foo")
  ∧ module_and_name "recipe:foo:bar" = Some ("recipe.py", "foo").
Proof.
  apply (module_and_name_accepts "recipe" "foo" "bar"); reflexivity.
Defined.

(** X17 on a task that returns its arguments, and another logger. *)
Lemma set_log_level_footprint_witness :
  ∃ rt' : runtime unit,
    set_log_level sample_run [ PInt 1 ] [] sample_runtime
    = sample_run [ PInt 1 ] [] rt'
    ∧ logger_levels (logging rt') !! "distributed"
      = logger_levels (logging sample_runtime) !! "distributed"
    ∧ root_handlers (logging rt')
      = Nat.max 1 (root_handlers (logging sample_runtime))
    ∧ process rt' = process sample_runtime.
Proof.
  apply (set_log_level_footprint sample_run [ PInt 1 ] [] sample_runtime
           "distributed").
  discriminate.
Defined.

(** X18 on a task that does not touch logging, started at [WARNING]. *)
Lemma set_log_level_not_restored_witness :
  logger_levels (logging (set_log_level sample_run [] [] sample_runtime).2)
    !! "pangeo_forge_recipes" = Some DEBUG.
Proof.
  apply (set_log_level_not_restored sample_run [] [] sample_runtime).
  intros rt0. reflexivity.
Defined.

(** X20 on a fresh recipe and on one bound before. *)
Lemma recipe_to_flow_overwrites_slots_witness :
  (recipe_to_flow (tags := sample_tags) sample_to_prefect sample_copy_pruned
     (sample_bakery (sample_cluster "aws.fargate" "s3") (sample_target "s3" None))
     (sample_meta None) "foo" 0%nat (Some sample_targets) sample_secrets false
     sample_world).1
  = (recipe_to_flow (tags := sample_tags) sample_to_prefect sample_copy_pruned
       (sample_bakery (sample_cluster "aws.fargate" "s3") (sample_target "s3" None))
       (sample_meta None) "foo" 0%nat (Some sample_targets) sample_secrets false
       sample_bound_world).1.
Proof.
  apply (recipe_to_flow_overwrites_slots (tags := sample_tags) sample_to_prefect
           sample_copy_pruned); reflexivity.
Defined.


(** X22 on a cluster whose flow storage uses a protocol no resolver knows. *)
Lemma recipe_to_flow_failure_origin_witness :
  ∃ (e : exn) (w' : world unit),
    recipe_to_flow (tags := sample_tags) sample_to_prefect sample_copy_pruned
      (sample_bakery (sample_cluster "aws.fargate" "gcs") (sample_target "s3" None))
      (sample_meta None) "foo" 0%nat (Some sample_targets) sample_secrets false
      sample_world = (Raise e, w')
    ∧ (configure_dask_executor (tags := sample_tags)
         (sample_cluster "aws.fargate" "gcs") (sample_recipe_bakery None) "foo"
         sample_secrets = Raise e
       ∨ configure_flow_storage (tags := sample_tags)
           (sample_cluster "aws.fargate" "gcs") sample_secrets = Raise e).
Proof.
  destruct (recipe_to_flow (tags := sample_tags) sample_to_prefect
              sample_copy_pruned
              (sample_bakery (sample_cluster "aws.fargate" "gcs")
                 (sample_target "s3" None))
              (sample_meta None) "foo" 0%nat (Some sample_targets)
              sample_secrets false sample_world) as [[flow|e] w'] eqn:E.
  - vm_compute in E. discriminate E.
  - exists e, w'. split; [reflexivity|].
    exact (recipe_to_flow_failure_origin (tags := sample_tags)
             sample_to_prefect sample_copy_pruned _ _ _ _ _ _ _ _ _ _ E).
Defined.

(** X24 on the sample batch, whose environment has no [COMMENT_ID]. *)
Lemma register_flow_without_correlation_id_witness :
  count run_request
    (calls (register_flow (tags := sample_tags) (adlfs := sample_adlfs) sample_to_prefect
              sample_copy_pruned sample_loader sample_flow_register
              sample_environ "feedstock/meta.yaml" (sample_meta None)
              (sample_bakeries (sample_cluster "azure.aks" "abfs"))
              sample_secrets sample_versions false sample_world).2)
  = count run_request (calls sample_world)
  ∧ count hook_request
      (calls (register_flow (tags := sample_tags) (adlfs := sample_adlfs) sample_to_prefect
                sample_copy_pruned sample_loader sample_flow_register
                sample_environ "feedstock/meta.yaml" (sample_meta None)
                (sample_bakeries (sample_cluster "azure.aks" "abfs"))
                sample_secrets sample_versions false sample_world).2)
    = count hook_request (calls sample_world).
Proof.
  apply (register_flow_without_correlation_id (tags := sample_tags) (adlfs := sample_adlfs)
           sample_to_prefect sample_copy_pruned sample_loader
           sample_flow_register sample_environ "feedstock/meta.yaml"
           (sample_meta None) (sample_bakeries (sample_cluster "azure.aks" "abfs"))
           sample_secrets sample_versions false sample_world).
  reflexivity.
Defined.

(** X25 on the sample batch with a correlation id and no bot token. *)
Lemma register_flow_without_bot_token_witness :
  count hook_request
    (calls (register_flow (tags := sample_tags) (adlfs := sample_adlfs) sample_to_prefect
              sample_copy_pruned sample_loader sample_flow_register
              (<["COMMENT_ID" := "42"]> sample_environ) "feedstock/meta.yaml"
              (sample_meta None)
              (sample_bakeries (sample_cluster "azure.aks" "abfs"))
              (delete "ACTIONS_BOT_TOKEN" sample_secrets) sample_versions false
              sample_world).2)
  = count hook_request (calls sample_world).
Proof.
  apply (register_flow_without_bot_token (tags := sample_tags) (adlfs := sample_adlfs)
           sample_to_prefect sample_copy_pruned sample_loader
           sample_flow_register (<["COMMENT_ID" := "42"]> sample_environ)
           "feedstock/meta.yaml" (sample_meta None)
           (sample_bakeries (sample_cluster "azure.aks" "abfs"))
           (delete "ACTIONS_BOT_TOKEN" sample_secrets) sample_versions false
           sample_world).
  reflexivity.
Defined.

(** X27 on a batch that fails on its first recipe, with one more recipe
    listed after it. *)
Lemma register_flow_stops_at_first_error_witness :
  ∃ (e : exn) (w' : world unit),
    register_flow (tags := sample_tags) (adlfs := sample_adlfs) sample_to_prefect sample_copy_pruned
      sample_loader sample_flow_register sample_environ "feedstock/meta.yaml"
      (Meta.mk "0.3.4" "2021.05.04"
         ([ RecipeMeta.mk "foo" "recipe:foo" None ]
          ++ [ RecipeMeta.mk "bar" "recipe:bar" None ])
         (sample_recipe_bakery None))
      (sample_bakeries (sample_cluster "gcp.gke" "s3")) sample_secrets
      sample_versions false sample_world
    = (Raise e, w').
Proof.
  destruct (register_flow (tags := sample_tags) (adlfs := sample_adlfs) sample_to_prefect
              sample_copy_pruned sample_loader sample_flow_register
              sample_environ "feedstock/meta.yaml" (sample_meta None)
              (sample_bakeries (sample_cluster "gcp.gke" "s3")) sample_secrets
              sample_versions false sample_world) as [[u|e] w'] eqn:E.
  - vm_compute in E. discriminate E.
  - exists e, w'.
    exact (register_flow_stops_at_first_error (tags := sample_tags) (adlfs := sample_adlfs)
             sample_to_prefect sample_copy_pruned sample_loader
             sample_flow_register sample_environ "feedstock/meta.yaml"
             (sample_meta None) (sample_bakeries (sample_cluster "gcp.gke" "s3"))
             sample_secrets sample_versions false
             [ RecipeMeta.mk "bar" "recipe:bar" None ] sample_world w' e E).
Defined.

(** X28 on an empty bakery table. *)
Lemma register_flow_unknown_bakery_witness :
  register_flow (tags := sample_tags) (adlfs := sample_adlfs) sample_to_prefect sample_copy_pruned
    sample_loader sample_flow_register sample_environ "feedstock/meta.yaml"
    (sample_meta None) ∅ sample_secrets sample_versions false sample_world
  = (Raise (KeyError "bakery-1"), sample_world).
Proof.
  apply (register_flow_unknown_bakery (tags := sample_tags) (adlfs := sample_adlfs) sample_to_prefect
           sample_copy_pruned sample_loader sample_flow_register sample_environ
           "feedstock/meta.yaml" (sample_meta None) ∅ sample_secrets
           sample_versions false sample_world).
  reflexivity.
Defined.

(** X29 on an empty environment. *)
Lemma register_flow_without_project_name_witness :
  register_flow (tags := sample_tags) (adlfs := sample_adlfs) sample_to_prefect sample_copy_pruned
    sample_loader sample_flow_register ∅ "feedstock/meta.yaml"
    (sample_meta None) (sample_bakeries (sample_cluster "aws.fargate" "s3"))
    sample_secrets sample_versions false sample_world
  = (Raise (KeyError "PREFECT_PROJECT_NAME"), sample_world).
Proof.
  apply (register_flow_without_project_name (tags := sample_tags) (adlfs := sample_adlfs)
           sample_to_prefect sample_copy_pruned sample_loader
           sample_flow_register ∅ "feedstock/meta.yaml" (sample_meta None)
           (sample_bakeries (sample_cluster "aws.fargate" "s3")) sample_secrets
           sample_versions false
           (sample_bakery (sample_cluster "aws.fargate" "s3")
              (sample_target "s3" (Some sample_s3_options)))
           sample_world); reflexivity.
Defined.

(** X30 on a module whose object is of another recipe class. *)
Lemma register_flow_unsupported_recipe_witness :
  register_flow (tags := sample_tags) (adlfs := sample_adlfs) sample_to_prefect sample_copy_pruned
    sample_loader sample_flow_register sample_environ "feedstock/meta.yaml"
    (sample_meta None) (sample_bakeries (sample_cluster "aws.fargate" "s3"))
    sample_secrets sample_versions false sample_foreign_world
  = (Raise UnsupportedRecipeType,
     {| objects := objects sample_foreign_world; calls := [ Client ] |}).
Proof.
  apply (register_flow_unsupported_recipe (tags := sample_tags) (adlfs := sample_adlfs)
           sample_to_prefect sample_copy_pruned sample_loader
           sample_flow_register sample_environ "feedstock/meta.yaml"
           (sample_meta None) (sample_bakeries (sample_cluster "aws.fargate" "s3"))
           sample_secrets sample_versions false
           (sample_bakery (sample_cluster "aws.fargate" "s3")
              (sample_target "s3" (Some sample_s3_options)))
           "forge" "HDFReferenceRecipe" (RecipeMeta.mk "foo" "recipe:foo" None) []
           0%nat (objects sample_foreign_world) sample_foreign_world);
    reflexivity.
Defined.

(** A connection-string target whose secret is found and is not a usable
    connection string: the library's [ValueError] comes out of
    [configure_targets], and no targets do. *)
Example malformed_connection_string_is_rejected :
  configure_targets (tags := sample_tags) (adlfs := sample_adlfs) sample_environ
    (sample_bakery (sample_cluster "azure.aks" "abfs")
       (sample_target "abfs" (Some (StorageOptions.mk "BAKERY_KEY" "FLOW_SECRET"))))
    (sample_recipe_bakery None) "foo" sample_secrets "zarr"
  = Raise ValueError.
Proof. reflexivity. Qed.
